(** * resticprofile: launchd trigger materializer, job lifecycle, lock file

    A shallow embedding of
    - [schedule/schedule_darwin.go]: [getJobName], [permutations],
      [getCalendarIntervalsFromSchedule], [getCalendarIntervalsFromSchedules],
      [createJob], [RemoveJob], [checkSystem], [displayStatus],
      [loadSchedules];
    - [schedule/job.go]: [Job.Create], [Job.Remove], [Job.Status],
      [Job.Accessible], [Job.RemoveOnly];
    - the lock file of package [lock], of which only the tests are available.

    Go's [int] is the 64-bit signed integer: it is a [Z] here and the
    wrap-around of the one multiplication of the code is written out. *)

From Stdlib Require Import ZArith Lia List String Ascii Bool.
From stdpp Require Import base option list gmap strings.

Local Open Scope Z_scope.

(** ** Go's 64-bit [int] *)

Definition wrap64 (z : Z) : Z := (z + 2 ^ 63) mod 2 ^ 64 - 2 ^ 63.

(** ** Package calendar, as far as the scheduler looks into it *)

Module Calendar.

(** Modelled from the spec: package [calendar] ([Value], [Event]) is not among
    the sources. A field of a calendar expression is either unconstrained
    ([Any]) or carries one or more concrete values (a Singleton carries one, a
    Range or a Set carries its members in order): [Values first rest]. *)
Inductive Value : Type :=
| Any
| Values (first : Z) (rest : list Z).

(** [HasValue] is true when one or more values are set. *)
Definition HasValue (v : Value) : bool :=
  match v with
  | Any => false
  | Values _ _ => true
  end.

(** [GetRangeValues] lists the concrete values of the field. *)
Definition GetRangeValues (v : Value) : list Z :=
  match v with
  | Any => []
  | Values first rest => first :: rest
  end.

(** Modelled from the spec: one value per field kind. The scheduler reads
    [WeekDay], [Month], [Day], [Hour] and [Minute]. *)
Record Event : Type := {
  WeekDay : Value;
  Month : Value;
  Day : Value;
  Hour : Value;
  Minute : Value;
  Second : Value
}.

End Calendar.

(** ** schedule_darwin.go *)

Module Launchd.

Import Calendar.

(** [CalendarInterval]: every key is tagged [omitempty] in the source, so a
    field that holds 0 is left out of the property list. *)
Record CalendarInterval : Type := {
  Month : Z;
  Day : Z;
  Weekday : Z;
  Hour : Z;
  Minute : Z
}.

(** The zero value of the struct, as [make] fills a new slice with. *)
Definition zeroInterval : CalendarInterval :=
  {| Month := 0; Day := 0; Weekday := 0; Hour := 0; Minute := 0 |}.

(** [entries[i].Weekday = d] *)
Definition setWeekday (d : Z) (e : CalendarInterval) : CalendarInterval :=
  {| Month := Month e; Day := Day e; Weekday := d; Hour := Hour e;
     Minute := Minute e |}.

(** A key is present in the encoded record when it is not the zero value. *)
Definition carried (field : Z) : bool := negb (field =? 0).

Definition permutations (total num : Z) : Z :=
  if total =? 0 then num else wrap64 (total * num).

(** [len(value.GetRangeValues())] *)
Definition cardinality (v : Value) : Z :=
  Z.of_nat (length (GetRangeValues v)).

(** The first loop of [getCalendarIntervalsFromSchedule], from a given
    running [total]. *)
Definition countFrom (total : Z) (values : list Value) : Z :=
  fold_left
    (fun total value =>
       if HasValue value then permutations total (cardinality value)
       else total)
    values total.

(** The five fields the function puts in its [values] slice, in its order. *)
Definition fieldsOf (schedule : Event) : list Value :=
  [WeekDay schedule; Calendar.Month schedule; Calendar.Day schedule;
   Calendar.Hour schedule; Calendar.Minute schedule].

Definition totalOf (schedule : Event) : Z := countFrom 0 (fieldsOf schedule).

(** [make([]CalendarInterval, total)] panics on a negative length. *)
Definition makeEntries (total : Z) : option (list CalendarInterval) :=
  if total <? 0 then None
  else Some (replicate (Z.to_nat total) zeroInterval).

(** [for i := 0; i < total; i++ { entries[i].Weekday = line[i] }], with [n]
    iterations left; an index out of range panics ([None]). *)
Fixpoint fillWeekday (line : list Z) (n : nat) (i : nat)
    (entries : list CalendarInterval) : option (list CalendarInterval) :=
  match n with
  | O => Some entries
  | S n' =>
      match line !! i, entries !! i with
      | Some d, Some e =>
          fillWeekday line n' (S i) (<[i := setWeekday d e]> entries)
      | _, _ => None
      end
  end.

Section Materializer.

(** [spread(values, total, &permutation)] is a function of the package that is
    not among the sources: it is a parameter here, returning the line and the
    new value of [permutation], or [None] when it panics. *)
Variable spread : list Z -> Z -> Z -> option (list Z * Z).

Definition getCalendarIntervalsFromSchedule (schedule : Event)
    : option (list CalendarInterval) :=
  let total := totalOf schedule in
  match makeEntries total with
  | None => None
  | Some entries =>
      let permutation := 1 in
      if HasValue (WeekDay schedule) then
        let values := GetRangeValues (WeekDay schedule) in
        match spread values total permutation with
        | None => None
        | Some (line, _) => fillWeekday line (Z.to_nat total) 0 entries
        end
      else Some entries
  end.

(** [entries = append(entries, getCalendarIntervalsFromSchedule(schedule)...)]
    over all schedules. *)
Fixpoint getCalendarIntervalsFromSchedules (schedules : list Event)
    : option (list CalendarInterval) :=
  match schedules with
  | [] => Some []
  | schedule :: rest =>
      match getCalendarIntervalsFromSchedule schedule with
      | None => None
      | Some entries =>
          match getCalendarIntervalsFromSchedules rest with
          | None => None
          | Some more => Some (entries ++ more)
          end
      end
  end.

End Materializer.

(** Modelled from the spec: [spread] after section 4.3, step 3. Entry [i]
    takes the value at position [(i / blockSize) mod cardinality], where
    [blockSize] is the product of the cardinalities of the later fields, that
    is [total] divided by the cardinalities spread so far ([permutation]) and
    by this field's own; [permutation] is then multiplied by the cardinality.
    A division by zero panics. *)
Definition spreadModel (values : list Z) (total permutation : Z)
    : option (list Z * Z) :=
  let n := Z.of_nat (length values) in
  if permutation * n =? 0 then None
  else
    let blockSize := total / (permutation * n) in
    if blockSize =? 0 then None
    else
      Some (map (fun i => nth (Z.to_nat ((i / blockSize) mod n)) values 0)
                (seqZ 0 total),
            permutation * n).

(** The fields among the five that carry more than one concrete value, and
    the product of their cardinalities. *)
Definition multiValued (schedule : Event) : list Value :=
  filter (fun v => 1 < cardinality v) (fieldsOf schedule).

Definition productOf (values : list Value) : Z :=
  foldr Z.mul 1 (map cardinality values).

(** The product of the cardinalities of the constrained fields. *)
Definition constrainedProduct (values : list Value) : Z :=
  productOf (List.filter HasValue values).

(** No field holds more values than the largest calendar domain has
    (60 minutes). *)
Definition withinDomains (schedule : Event) : Prop :=
  Forall (fun v => cardinality v <= 60) (fieldsOf schedule).

(** At least one of the five fields is constrained. *)
Definition constrained (schedule : Event) : bool :=
  existsb HasValue (fieldsOf schedule).

(** Expressions of the examples in the source's comment. *)
Definition anyEvent : Event :=
  {| WeekDay := Any; Calendar.Month := Any; Calendar.Day := Any;
     Calendar.Hour := Any; Calendar.Minute := Any; Second := Any |}.

(** [Mon-Fri *-*-* *:0,30:00] *)
Definition halfHourly : Event :=
  {| WeekDay := Values 1 [2; 3; 4; 5]; Calendar.Month := Any;
     Calendar.Day := Any; Calendar.Hour := Any;
     Calendar.Minute := Values 0 [30]; Second := Values 0 [] |}.

(** [*-*-01 *:*:*] *)
Definition firstOfMonth : Event :=
  {| WeekDay := Any; Calendar.Month := Any; Calendar.Day := Values 1 [];
     Calendar.Hour := Any; Calendar.Minute := Any; Second := Any |}.

(** *** The native job label *)

Definition namePrefix : string := "local.resticprofile.".

Section JobName.

(** [strings.ToLower] belongs to Go's library, not to this repository. *)
Variable ToLower : string -> string.

Definition getJobName (profileName : string) : string :=
  (namePrefix ++ ToLower profileName)%string.

End JobName.

(** [strings.ToLower] on the bytes of an ASCII string: [A]..[Z] become
    [a]..[z], every other byte is kept. *)
Definition lowerByte (c : ascii) : ascii :=
  let n := nat_of_ascii c in
  if ((65 <=? n) && (n <=? 90))%nat then ascii_of_nat (n + 32) else c.

Fixpoint asciiToLower (s : string) : string :=
  match s with
  | EmptyString => EmptyString
  | String c rest => String (lowerByte c) (asciiToLower rest)
  end.

End Launchd.

(** ** job.go *)

Module Scheduler.

(** [config.ScheduleConfig], as far as [Job] reads it. *)
Record ScheduleConfig : Type := {
  Schedules : list string;
  SubTitle : string;
  Permission : string;
  RemoveOnly : bool
}.

(** Modelled from the spec: [permissionError] is not among the sources; it
    builds the PermissionError of the action it is given.
    [ErrorJobCanBeRemovedOnly] is the package variable of that name in
    job.go; any other error comes from the handler. *)
Inductive error : Type :=
| ErrorJobCanBeRemovedOnly
| permissionError (action : string)
| handlerError (message : string).

(** What job.go calls outside itself: the six methods of the handler and
    the three permission functions of the package. *)
Inductive Call : Type :=
| CallParseSchedules (schedules : list string)
| CallDisplayParsedSchedules (subTitle : string)
    (schedules : list Calendar.Event)
| CallDisplaySchedules (subTitle : string) (schedules : list string)
| CallCreateJob (config : ScheduleConfig) (schedules : list Calendar.Event)
    (permission : string)
| CallRemoveJob (config : ScheduleConfig) (permission : string)
| CallDisplayJobStatus (config : ScheduleConfig)
| CallDetectSchedulePermission (permission : string)
| CallGetSchedulePermission (permission : string)
| CallCheckPermission (permission : string).

Definition isHandlerCall (c : Call) : bool :=
  match c with
  | CallDetectSchedulePermission _ | CallGetSchedulePermission _
  | CallCheckPermission _ => false
  | _ => true
  end.

Definition isCreateJob (c : Call) : bool :=
  match c with CallCreateJob _ _ _ => true | _ => false end.

Definition isRemoveJob (c : Call) : bool :=
  match c with CallRemoveJob _ _ => true | _ => false end.

Section Jobs.

(** The state of the native scheduler, which the handler alone reads and
    changes. *)
Variable Native : Type.

(** The [Handler] interface: every method runs on the native state. *)
Record Handler : Type := {
  ParseSchedules :
    list string -> Native -> (list Calendar.Event * option error) * Native;
  DisplayParsedSchedules :
    string -> list Calendar.Event -> Native -> Native;
  DisplaySchedules :
    string -> list string -> Native -> option error * Native;
  CreateJob :
    ScheduleConfig -> list Calendar.Event -> string -> Native
    -> option error * Native;
  RemoveJob : ScheduleConfig -> string -> Native -> option error * Native;
  DisplayJobStatus : ScheduleConfig -> Native -> option error * Native
}.

Record Job : Type := {
  config : ScheduleConfig;
  handler : Handler
}.

(** The permission functions of the package are not among the sources:
    [detectSchedulePermission] returns the permission and a second result
    that job.go always discards, [checkPermission] tells whether the current
    process may use the permission. *)
Variable detectSchedulePermission : string -> string * bool.
Variable getSchedulePermission : string -> string.
Variable checkPermission : string -> bool.

(** The world a method runs in: the native state and the calls made so far,
    oldest first, each with the error it returned. *)
Record World : Type := {
  native : Native;
  calls : list (Call * option error)
}.

Definition M (A : Type) : Type := World -> A * World.

Definition ret {A : Type} (a : A) : M A := fun w => (a, w).

Definition bind {A B : Type} (m : M A) (k : A -> M B) : M B :=
  fun w => let (a, w') := m w in k a w'.

Notation "'let*' x ':=' m 'in' k" := (bind m (fun x => k))
  (at level 10, x name, m at level 100, k at level 200).

Definition record (c : Call) (r : option error) (n : Native) (w : World)
    : World :=
  {| native := n; calls := calls w ++ [(c, r)] |}.

Definition doDetectSchedulePermission (p : string) : M string :=
  fun w => (fst (detectSchedulePermission p),
            record (CallDetectSchedulePermission p) None (native w) w).

Definition doGetSchedulePermission (p : string) : M string :=
  fun w => (getSchedulePermission p,
            record (CallGetSchedulePermission p) None (native w) w).

Definition doCheckPermission (p : string) : M bool :=
  fun w => (checkPermission p,
            record (CallCheckPermission p) None (native w) w).

Definition doParseSchedules (h : Handler) (raw : list string)
    : M (list Calendar.Event * option error) :=
  fun w => let (res, n) := ParseSchedules h raw (native w) in
           (res, record (CallParseSchedules raw) (snd res) n w).

Definition doDisplayParsedSchedules (h : Handler) (subTitle : string)
    (schedules : list Calendar.Event) : M unit :=
  fun w => (tt, record (CallDisplayParsedSchedules subTitle schedules) None
                  (DisplayParsedSchedules h subTitle schedules (native w)) w).

Definition doDisplaySchedules (h : Handler) (subTitle : string)
    (raw : list string) : M (option error) :=
  fun w => let (err, n) := DisplaySchedules h subTitle raw (native w) in
           (err, record (CallDisplaySchedules subTitle raw) err n w).

Definition doCreateJob (h : Handler) (c : ScheduleConfig)
    (schedules : list Calendar.Event) (permission : string)
    : M (option error) :=
  fun w => let (err, n) := CreateJob h c schedules permission (native w) in
           (err, record (CallCreateJob c schedules permission) err n w).

Definition doRemoveJob (h : Handler) (c : ScheduleConfig)
    (permission : string) : M (option error) :=
  fun w => let (err, n) := RemoveJob h c permission (native w) in
           (err, record (CallRemoveJob c permission) err n w).

Definition doDisplayJobStatus (h : Handler) (c : ScheduleConfig)
    : M (option error) :=
  fun w => let (err, n) := DisplayJobStatus h c (native w) in
           (err, record (CallDisplayJobStatus c) err n w).

(** [RemoveOnly] returns true if this job can be removed only. *)
Definition JobRemoveOnly (j : Job) : bool := RemoveOnly (config j).

(** [Accessible] checks if the current user is permitted to access the job. *)
Definition Accessible (j : Job) : M bool :=
  let* permission := doDetectSchedulePermission (Permission (config j)) in
  doCheckPermission permission.

(** The display step shared by [Create] and [Status]: the parsed schedules
    when there are some, the raw ones otherwise. *)
Definition display (j : Job) (schedules : list Calendar.Event)
    : M (option error) :=
  if (0 <? Z.of_nat (length schedules)) then
    let* _ := doDisplayParsedSchedules (handler j) (SubTitle (config j))
                schedules in
    ret None
  else
    doDisplaySchedules (handler j) (SubTitle (config j))
      (Schedules (config j)).

(** [Create] a new job. *)
Definition Create (j : Job) : M (option error) :=
  if JobRemoveOnly j then ret (Some ErrorJobCanBeRemovedOnly)
  else
    let* permission := doGetSchedulePermission (Permission (config j)) in
    let* ok := doCheckPermission permission in
    if negb ok then ret (Some (permissionError "create"))
    else
      let* parsed := doParseSchedules (handler j) (Schedules (config j)) in
      match parsed with
      | (_, Some err) => ret (Some err)
      | (schedules, None) =>
          let* shown := display j schedules in
          match shown with
          | Some err => ret (Some err)
          | None =>
              let* err := doCreateJob (handler j) (config j) schedules
                            permission in
              match err with
              | Some err => ret (Some err)
              | None => ret None
              end
          end
      end.

(** [Remove] a job. *)
Definition Remove (j : Job) : M (option error) :=
  let* permission :=
    (if JobRemoveOnly j
     then doDetectSchedulePermission (Permission (config j))
     else doGetSchedulePermission (Permission (config j))) in
  let* ok := doCheckPermission permission in
  if negb ok then ret (Some (permissionError "remove"))
  else doRemoveJob (handler j) (config j) permission.

(** The permission [Remove] resolves, and the call it resolves it with. *)
Definition removePermission (j : Job) : string :=
  if JobRemoveOnly j
  then fst (detectSchedulePermission (Permission (config j)))
  else getSchedulePermission (Permission (config j)).

Definition removeResolution (j : Job) : Call :=
  if JobRemoveOnly j
  then CallDetectSchedulePermission (Permission (config j))
  else CallGetSchedulePermission (Permission (config j)).

(** [Status] of a job. *)
Definition Status (j : Job) : M (option error) :=
  if JobRemoveOnly j then ret (Some ErrorJobCanBeRemovedOnly)
  else
    let* parsed := doParseSchedules (handler j) (Schedules (config j)) in
    match parsed with
    | (_, Some err) => ret (Some err)
    | (schedules, None) =>
        let* shown := display j schedules in
        match shown with
        | Some err => ret (Some err)
        | None =>
            let* err := doDisplayJobStatus (handler j) (config j) in
            match err with
            | Some err => ret (Some err)
            | None => ret None
            end
        end
    end.

(** A run from a native state with nothing called yet. *)
Definition start (n : Native) : World := {| native := n; calls := [] |}.

(** The calls of a run that satisfy [p]. *)
Definition callsTo (p : Call -> bool) (w : World)
    : list (Call * option error) :=
  List.filter (fun c => p (fst c)) (calls w).

End Jobs.

Arguments ParseSchedules {Native}.
Arguments DisplayParsedSchedules {Native}.
Arguments DisplaySchedules {Native}.
Arguments CreateJob {Native}.
Arguments RemoveJob {Native}.
Arguments DisplayJobStatus {Native}.
Arguments config {Native}.
Arguments handler {Native}.
Arguments native {Native}.
Arguments calls {Native}.
Arguments start {Native}.
Arguments callsTo {Native}.
Arguments JobRemoveOnly {Native}.
Arguments Accessible {Native}.
Arguments Create {Native}.
Arguments Remove {Native}.
Arguments Status {Native}.
Arguments removePermission {Native}.
Arguments removeResolution {Native}.

(** *** An environment to run the methods in

    A handler over a native state that is the list of the registered jobs'
    sub-titles, and the permission functions of a process that is not root:
    an explicit "user" or "system" is taken as it is, anything else is
    guessed to be "user"; only "user" is allowed. *)

Definition memoryHandler (installFails : bool) : Handler (list string) :=
  {| ParseSchedules := fun raw n =>
       if existsb (fun s => String.eqb s "") raw
       then (([], Some (handlerError "empty schedule")), n)
       else ((map (fun _ => Launchd.anyEvent) raw, None), n);
     DisplayParsedSchedules := fun _ _ n => n;
     DisplaySchedules := fun _ _ n => (None, n);
     CreateJob := fun c _ _ n =>
       if installFails then (Some (handlerError "install failed"), n)
       else (None, SubTitle c :: n);
     RemoveJob := fun c _ n =>
       (None, List.filter (fun t => negb (String.eqb t (SubTitle c))) n);
     DisplayJobStatus := fun c n =>
       if existsb (String.eqb (SubTitle c)) n then (None, n)
       else (Some (handlerError "not found"), n) |}.

Definition userDetect (permission : string) : string * bool :=
  if String.eqb permission "system" || String.eqb permission "user"
  then (permission, true)
  else ("user"%string, false).

Definition userGet (permission : string) : string :=
  fst (userDetect permission).

Definition userCheck (permission : string) : bool :=
  String.eqb permission "user".

Definition backupConfig (permission : string) (removeOnly : bool)
    : ScheduleConfig :=
  {| Schedules := ["Mon-Fri *-*-* *:0,30:00"%string];
     SubTitle := "backup";
     Permission := permission;
     RemoveOnly := removeOnly |}.

Definition backupJob (permission : string) (removeOnly installFails : bool)
    : Job (list string) :=
  {| config := backupConfig permission removeOnly;
     handler := memoryHandler installFails |}.

(** The same job with an empty schedule, which the handler refuses. *)
Definition emptyScheduleJob : Job (list string) :=
  {| config := {| Schedules := [""%string]; SubTitle := "backup";
                  Permission := "user"; RemoveOnly := false |};
     handler := memoryHandler false |}.

End Scheduler.

(** ** The lock file *)

Module Lock.

(** Modelled from the spec: package [lock] is not among the sources, only its
    test is. A lock is identified by a path; its marker file holds the owner
    metadata (user, host, timestamp, process id) and exists only while the
    lock is held. The file system is the map from paths to markers. *)
Record Owner : Type := {
  user : string;
  host : string;
  timestamp : Z;
  pid : Z
}.

#[global] Instance Owner_eq_dec : EqDecision Owner.
Proof. solve_decision. Defined.

(** A handle: the path, and the identity under which it holds the lock when
    it does. *)
Record Handle : Type := {
  Lockfile : string;
  holder : option Owner
}.

Definition NewLock (filename : string) : Handle :=
  {| Lockfile := filename; holder := None |}.

(** Modelled from the spec: [TryAcquire] creates the marker exclusively
    (create-if-absent in one step) and returns true iff this call created it;
    with a marker in place it returns false and changes nothing. *)
Definition TryAcquire (me : Owner) (l : Handle) (fs : gmap string Owner)
    : bool * Handle * gmap string Owner :=
  match fs !! Lockfile l with
  | Some _ => (false, l, fs)
  | None =>
      (true, {| Lockfile := Lockfile l; holder := Some me |},
       <[Lockfile l := me]> fs)
  end.

(** Modelled from the spec: [Release] removes the marker only if it is owned
    by the identity that holds the handle; on a handle that does not hold the
    lock it does nothing. *)
Definition Release (l : Handle) (fs : gmap string Owner)
    : Handle * gmap string Owner :=
  match holder l with
  | None => (l, fs)
  | Some me =>
      ({| Lockfile := Lockfile l; holder := None |},
       if decide (fs !! Lockfile l = Some me) then delete (Lockfile l) fs
       else fs)
  end.

(** An owner for the runs below: one process at successive instants. *)
Definition backupOwner (stamp : Z) : Owner :=
  {| user := "backup"; host := "localhost"; timestamp := stamp; pid := 4242 |}.

End Lock.

(** ** Selections among the calls of job.go *)

Module Calls.

Import Scheduler.

Definition isParseSchedules (c : Call) : bool :=
  match c with CallParseSchedules _ => true | _ => false end.

Definition isDisplayParsedSchedules (c : Call) : bool :=
  match c with CallDisplayParsedSchedules _ _ => true | _ => false end.

Definition isDisplaySchedules (c : Call) : bool :=
  match c with CallDisplaySchedules _ _ => true | _ => false end.

Definition isDisplayJobStatus (c : Call) : bool :=
  match c with CallDisplayJobStatus _ => true | _ => false end.

Definition isPermissionCall (c : Call) : bool := negb (isHandlerCall c).

(** A handler of a scheduler that takes the schedules as text: nothing is
    parsed, and the raw schedules are shown by a tool that may fail. *)
Definition textHandler (displayFails : bool) : Handler (list string) :=
  {| ParseSchedules := fun _ n => (([], None), n);
     DisplayParsedSchedules := fun _ _ n => n;
     DisplaySchedules := fun _ _ n =>
       if displayFails then (Some (handlerError "cannot run the analyzer"), n)
       else (None, n);
     CreateJob := fun c _ _ n => (None, SubTitle c :: n);
     RemoveJob := fun c _ n =>
       (None, List.filter (fun t => negb (String.eqb t (SubTitle c))) n);
     DisplayJobStatus := fun _ n => (None, n) |}.

Definition textJob (displayFails : bool) : Job (list string) :=
  {| config := backupConfig "user" false;
     handler := textHandler displayFails |}.

End Calls.

(** ** schedule_darwin.go: the agent file and launchctl *)

Module Darwin.

Import Calendar Launchd.

(** Default paths for launchd files. *)
Definition launchdBin : string := "launchd".
Definition launchctlBin : string := "launchctl".
Definition UserAgentPath : string := "Library/LaunchAgents".
Definition GlobalAgentPath : string := "/Library/LaunchAgents".
Definition GlobalDaemons : string := "/Library/LaunchDaemons".
Definition agentExtension : string := ".agent.plist".

(** Go's [error] values in this file: the ones it builds with [errors.New],
    and the ones the operating system, the encoder or the parser return. *)
Inductive error : Type :=
| errorsNew (message : string)
| foreignError (message : string).

(** [LaunchJob] is an agent definition for launchd. *)
Record LaunchJob : Type := {
  Label : string;
  Program : string;
  ProgramArguments : list string;
  EnvironmentVariables : gmap string string;
  StandardInPath : string;
  StandardOutPath : string;
  StandardErrorPath : string;
  WorkingDirectory : string;
  StartInterval : Z;
  StartCalendarInterval : list CalendarInterval
}.

(** The profile and the job of this file, as far as it reads them. *)
Record Profile : Type := {
  Name : string;
  Environment : gmap string string
}.

Record Job : Type := {
  profile : Profile;
  configFile : string;
  schedules : list Event
}.

(** What the file does to the system, in the order it does it. *)
Inductive Effect : Type :=
| OsGetwd
| OsUserHomeDir
| OsCreate (name : string)
| PlistEncode (file : string) (job : LaunchJob)
| FileClose (file : string)
| ExecRun (bin : string) (args : list string)
| OsRemove (name : string)
| ExecLookPath (file : string).

Definition isExecRun (e : Effect) : bool :=
  match e with ExecRun _ _ => true | _ => false end.

Definition isOsRemove (e : Effect) : bool :=
  match e with OsRemove _ => true | _ => false end.

Definition isOsCreate (e : Effect) : bool :=
  match e with OsCreate _ => true | _ => false end.

Definition isPlistEncode (e : Effect) : bool :=
  match e with PlistEncode _ _ => true | _ => false end.

Section Agents.

(** The state of the machine: its files, launchd, the process. *)
Variable Sys : Type.

(** The operating system and the libraries, as this file uses them. A file
    that was opened is named by its path. *)
Record System : Type := {
  Getwd : Sys -> string + error;
  UserHomeDir : Sys -> string + error;
  Create : string -> Sys -> option error * Sys;
  Encode : string -> LaunchJob -> Sys -> option error * Sys;
  Close : string -> Sys -> Sys;
  Run : string -> list string -> Sys -> option error * Sys;
  Remove : string -> Sys -> option error * Sys;
  LookPath : string -> Sys -> string * option error
}.

Variable os : System.

(** [os.Args[0]], [strings.ToLower] and [path.Join] of Go's library;
    [absolutePathToBinary] and [spread] are functions of the repository that
    are not among the sources. *)
Variable Args0 : string.
Variable ToLower : string -> string.
Variable pathJoin : list string -> string.
Variable absolutePathToBinary : string -> string -> string.
Variable spread : list Z -> Z -> Z -> option (list Z * Z).

Record World : Type := {
  sys : Sys;
  effects : list Effect
}.

(** A computation changes the world and returns, or panics ([None]). *)
Definition M (A : Type) : Type := World -> option (A * World).

Definition ret {A : Type} (a : A) : M A := fun w => Some (a, w).

Definition bind {A B : Type} (m : M A) (k : A -> M B) : M B :=
  fun w => match m w with
           | None => None
           | Some (a, w') => k a w'
           end.

Notation "'let*' x ':=' m 'in' k" := (bind m (fun x => k))
  (at level 10, x name, m at level 100, k at level 200).

Definition panic {A : Type} : M A := fun _ => None.

Definition did (e : Effect) (s : Sys) (w : World) : World :=
  {| sys := s; effects := effects w ++ [e] |}.

Definition osGetwd : M (string + error) :=
  fun w => Some (Getwd os (sys w), did OsGetwd (sys w) w).

Definition osUserHomeDir : M (string + error) :=
  fun w => Some (UserHomeDir os (sys w), did OsUserHomeDir (sys w) w).

Definition osCreate (name : string) : M (option error) :=
  fun w => let (err, s) := Create os name (sys w) in
           Some (err, did (OsCreate name) s w).

Definition plistEncode (file : string) (job : LaunchJob) : M (option error) :=
  fun w => let (err, s) := Encode os file job (sys w) in
           Some (err, did (PlistEncode file job) s w).

Definition fileClose (file : string) : M unit :=
  fun w => Some (tt, did (FileClose file) (Close os file (sys w)) w).

Definition execRun (bin : string) (args : list string) : M (option error) :=
  fun w => let (err, s) := Run os bin args (sys w) in
           Some (err, did (ExecRun bin args) s w).

Definition osRemove (name : string) : M (option error) :=
  fun w => let (err, s) := Remove os name (sys w) in
           Some (err, did (OsRemove name) s w).

Definition execLookPath (file : string) : M (string * option error) :=
  fun w => Some (LookPath os file (sys w), did (ExecLookPath file) (sys w) w).

(** The path of the agent file of a label under a home directory. *)
Definition agentFile (home name : string) : string :=
  pathJoin [home; UserAgentPath; (name ++ agentExtension)%string].

(** The [LaunchJob] literal of [createJob]. *)
Definition launchJob (j : Job) (wd : string)
    (intervals : list CalendarInterval) : LaunchJob :=
  let binary := absolutePathToBinary wd Args0 in
  let name := getJobName ToLower (Name (profile j)) in
  {| Label := name;
     Program := binary;
     ProgramArguments :=
       [binary; "--no-ansi"; "--config"; configFile j; "--name";
        Name (profile j); "backup"]%string;
     EnvironmentVariables := Environment (profile j);
     StandardInPath := "";
     StandardOutPath := (name ++ ".log")%string;
     StandardErrorPath := (name ++ ".log")%string;
     WorkingDirectory := wd;
     StartInterval := 0;
     StartCalendarInterval := intervals |}.

(** [createJob] creates a plist file; the calls that would load and start
    the service are commented out in the source. The file is closed when
    the function returns ([defer file.Close()]). *)
Definition createJob (j : Job) : M (option error) :=
  let* wd := osGetwd in
  match wd with
  | inr err => ret (Some err)
  | inl wd =>
      let* home := osUserHomeDir in
      match home with
      | inr err => ret (Some err)
      | inl home =>
          match getCalendarIntervalsFromSchedules spread (schedules j) with
          | None => panic
          | Some intervals =>
              let name := getJobName ToLower (Name (profile j)) in
              let job := launchJob j wd intervals in
              let file := agentFile home name in
              let* err := osCreate file in
              match err with
              | Some err => ret (Some err)
              | None =>
                  let* err := plistEncode file job in
                  let* _ := fileClose file in
                  match err with
                  | Some err => ret (Some err)
                  | None => ret None
                  end
              end
          end
      end
  end.

(** [RemoveJob] stops and unloads the agent from launchd, then removes the
    configuration file. *)
Definition RemoveJob (profileName : string) : M (option error) :=
  let* home := osUserHomeDir in
  match home with
  | inr err => ret (Some err)
  | inl home =>
      let name := getJobName ToLower profileName in
      let* _ := execRun launchctlBin ["stop"%string; name] in
      let filename := agentFile home name in
      let* err := execRun launchctlBin ["unload"%string; filename] in
      match err with
      | Some err => ret (Some err)
      | None => osRemove filename
      end
  end.

(** [checkSystem] verifies launchd is available on this system. *)
Definition checkSystem : M (option error) :=
  let* looked := execLookPath launchdBin in
  match looked with
  | (_, Some _) =>
      ret (Some (errorsNew
        "it doesn't look like launchd is installed on your system"))
  | (found, None) =>
      if String.eqb found "" then
        ret (Some (errorsNew
          "it doesn't look like launchd is installed on your system"))
      else ret None
  end.

Definition displayStatus (j : Job) : M (option error) :=
  execRun launchctlBin ["list"%string; getJobName ToLower (Name (profile j))].

(** A run from a state of the machine with nothing done yet. *)
Definition start (s : Sys) : World := {| sys := s; effects := [] |}.

End Agents.

Arguments Getwd {Sys}.
Arguments UserHomeDir {Sys}.
Arguments Create {Sys}.
Arguments Encode {Sys}.
Arguments Close {Sys}.
Arguments Run {Sys}.
Arguments Remove {Sys}.
Arguments LookPath {Sys}.
Arguments sys {Sys}.
Arguments effects {Sys}.
Arguments start {Sys}.
Arguments createJob {Sys}.
Arguments RemoveJob {Sys}.
Arguments checkSystem {Sys}.
Arguments displayStatus {Sys}.

(** The number of entries the code plans for a list of schedules. *)
Definition plannedEntries (schedules : list Event) : Z :=
  foldr Z.add 0 (map totalOf schedules).

(** *** loadSchedules *)

(** What [loadSchedules] prints: the banner of a schedule, the five lines
    about an event that was parsed (its forms and its next elapse), and the
    empty line at the end. *)
Inductive Printed : Type :=
| Analyzing (index count : Z)
| Described (schedule : string) (event : Event)
| EmptyLine.

Section Schedules.

(** [calendar.NewEvent] followed by [event.Parse] is not among the sources:
    the event, or the error of the parser. *)
Variable Parse : string -> Event + error.

(** The loop of [loadSchedules] from position [index] with [events]
    collected and [out] printed so far. *)
Fixpoint loadFrom (count : Z) (index : Z) (rest : list string)
    (events : list Event) (out : list Printed)
    : list Event * option error * list Printed :=
  match rest with
  | [] => (events, None, out ++ [EmptyLine])
  | schedule :: rest' =>
      if String.eqb schedule "" then
        (events, Some (errorsNew "empty schedule"), out)
      else
        let out := out ++ [Analyzing (index + 1) count] in
        match Parse schedule with
        | inr err => (events, Some err, out)
        | inl event =>
            loadFrom count (index + 1) rest' (events ++ [event])
              (out ++ [Described schedule event])
        end
  end.

Definition loadSchedules (schedules : list string)
    : list Event * option error * list Printed :=
  loadFrom (Z.of_nat (length schedules)) 0 schedules [] [].

(** A schedule the loop gets past. *)
Definition loads (schedule : string) : bool :=
  negb (String.eqb schedule "")
  && match Parse schedule with inl _ => true | inr _ => false end.

(** The event of a schedule the loop gets past. *)
Definition eventOf (schedule : string) : option Event :=
  match Parse schedule with inl event => Some event | inr _ => None end.

(** The error the loop stops with at a schedule it does not get past. *)
Definition failureOf (schedule : string) : option error :=
  if String.eqb schedule "" then Some (errorsNew "empty schedule")
  else match Parse schedule with inl _ => None | inr err => Some err end.

End Schedules.

(** *** A machine to run the functions on

    The files of the machine with their content (none when a file was
    created and nothing written yet), and the labels loaded in launchd.
    [launchctl stop] fails on a label that is not loaded, [launchctl unload]
    on a file that does not exist, [os.Remove] on a missing file. *)
Record Machine : Type := {
  files : gmap string (option LaunchJob);
  loaded : list string;
  homeDir : option string
}.

Definition memorySystem : System Machine :=
  {| Getwd := fun _ => inl "/work"%string;
     UserHomeDir := fun m =>
       match homeDir m with
       | Some home => inl home
       | None => inr (foreignError "$HOME is not defined")
       end;
     Create := fun name m =>
       (None, {| files := <[name := None]> (files m); loaded := loaded m;
                 homeDir := homeDir m |});
     Encode := fun file job m =>
       (None, {| files := <[file := Some job]> (files m);
                 loaded := loaded m; homeDir := homeDir m |});
     Close := fun _ m => m;
     Run := fun bin args m =>
       match args with
       | [verb; target] =>
           if String.eqb verb "stop" then
             if existsb (String.eqb target) (loaded m) then (None, m)
             else (Some (foreignError "exit status 3"), m)
           else if String.eqb verb "unload" then
             match files m !! target with
             | Some _ => (None, m)
             | None => (Some (foreignError "exit status 1"), m)
             end
           else (None, m)
       | _ => (None, m)
       end;
     Remove := fun name m =>
       match files m !! name with
       | Some _ => (None, {| files := delete name (files m);
                             loaded := loaded m; homeDir := homeDir m |})
       | None => (Some (foreignError "no such file or directory"), m)
       end;
     LookPath := fun file m => ("/sbin/launchd"%string, None) |}.

(** [path.Join] on elements that need no cleaning. *)
Definition joinPath (elements : list string) : string :=
  String.concat "/" elements.

Definition backupProfile (name : string) : Job :=
  {| profile := {| Name := name; Environment := ∅ |};
     configFile := "profiles.conf";
     schedules := [halfHourly] |}.

Definition emptyMachine (home : option string) : Machine :=
  {| files := ∅; loaded := []; homeDir := home |}.

(** The machine of a user, with the agent file of profile "backup" written
    or not; the agent is not loaded. *)
Definition backupHome : string := "/Users/backup".

Definition backupAgentFile : string :=
  joinPath [backupHome; UserAgentPath;
            ("local.resticprofile.backup" ++ agentExtension)%string].

Definition userMachine (installed : bool) : Machine :=
  {| files := if installed then {[ backupAgentFile := None ]} else ∅;
     loaded := [];
     homeDir := Some backupHome |}.

(** [absolutePathToBinary] when the binary is named relative to the working
    directory. *)
Definition underDirectory (wd binary : string) : string :=
  joinPath [wd; binary].

(** A parser that knows two schedules. *)
Definition twoSchedules (schedule : string) : Event + error :=
  if String.eqb schedule "Mon-Fri *-*-* *:0,30:00" then inl halfHourly
  else if String.eqb schedule "*-*-01 *:*:*" then inl firstOfMonth
  else inr (foreignError "cannot parse").

End Darwin.

(** * Properties of the trigger materializer *)

Import Calendar Launchd.

Lemma wrap64_small (z : Z) : - 2 ^ 63 <= z < 2 ^ 63 -> wrap64 z = z.
Proof.
  intros Hz. unfold wrap64.
  rewrite Z.mod_small; lia.
Qed.

Lemma cardinality_constrained (v : Value) :
  HasValue v = true -> 1 <= cardinality v.
Proof.
  destruct v as [|first rest]; simpl; [discriminate|].
  intros _. unfold cardinality. simpl. lia.
Qed.

Lemma cardinality_any (v : Value) : HasValue v = false -> cardinality v = 0.
Proof. destruct v; simpl; [reflexivity|discriminate]. Qed.

Lemma productOf_cons (v : Value) (vs : list Value) :
  productOf (v :: vs) = cardinality v * productOf vs.
Proof. reflexivity. Qed.

Lemma constrainedProduct_cons (v : Value) (vs : list Value) :
  constrainedProduct (v :: vs) =
  if HasValue v then cardinality v * constrainedProduct vs
  else constrainedProduct vs.
Proof.
  unfold constrainedProduct. simpl. destruct (HasValue v); reflexivity.
Qed.

Lemma pow60_le_max (k : nat) : (k <= 10)%nat -> 60 ^ Z.of_nat k < 2 ^ 63.
Proof.
  intros Hk.
  apply Z.le_lt_trans with (60 ^ 10); [|reflexivity].
  apply Z.pow_le_mono_r; lia.
Qed.

(** Once the running total is positive, the loop multiplies it by the
    cardinality of every constrained field, without wrapping. *)
Lemma countFrom_positive (vs : list Value) :
  forall (total : Z) (k : nat),
    1 <= total <= 60 ^ Z.of_nat k ->
    Forall (fun v => cardinality v <= 60) vs ->
    (k + length vs <= 10)%nat ->
    countFrom total vs = total * constrainedProduct vs
    /\ 1 <= total * constrainedProduct vs <= 60 ^ Z.of_nat (k + length vs).
Proof.
  induction vs as [|v vs IH]; intros total k Htotal Hdom Hlen.
  - unfold countFrom, constrainedProduct, productOf. simpl.
    rewrite Nat.add_0_r. lia.
  - apply Forall_cons in Hdom as [Hv Hvs]. simpl in Hlen.
    rewrite constrainedProduct_cons.
    unfold countFrom. simpl fold_left. fold (countFrom).
    destruct (HasValue v) eqn:Hhas.
    + pose proof (cardinality_constrained v Hhas) as Hone.
      assert (Hstep : 1 <= total * cardinality v <= 60 ^ Z.of_nat (S k)).
      { rewrite Nat2Z.inj_succ, Z.pow_succ_r by lia. nia. }
      assert (Hperm : permutations total (cardinality v)
                      = total * cardinality v).
      { unfold permutations. destruct (Z.eqb_spec total 0) as [->|_]; [lia|].
        apply wrap64_small.
        pose proof (pow60_le_max (S k) ltac:(lia)). lia. }
      change (fold_left _ vs ?t) with (countFrom t vs).
      rewrite Hperm.
      destruct (IH (total * cardinality v) (S k) Hstep Hvs ltac:(lia))
        as [Heq Hbound].
      replace (k + length (v :: vs))%nat with (S k + length vs)%nat
        by (simpl; lia).
      rewrite Z.mul_assoc. split; assumption.
    + change (fold_left _ vs ?t) with (countFrom t vs).
      destruct (IH total k Htotal Hvs ltac:(lia)) as [Heq Hbound].
      split; [assumption|].
      split; [lia|].
      apply Z.le_trans with (60 ^ Z.of_nat (k + length vs)); [lia|].
      apply Z.pow_le_mono_r; simpl; lia.
Qed.

(** From the initial total 0, the loop yields 0 when no field is constrained
    and the product over the constrained fields otherwise. *)
Lemma countFrom_zero (vs : list Value) :
  Forall (fun v => cardinality v <= 60) vs ->
  (length vs <= 9)%nat ->
  countFrom 0 vs =
  (if existsb HasValue vs then constrainedProduct vs else 0)
  /\ 0 <= countFrom 0 vs < 2 ^ 63.
Proof.
  induction vs as [|v vs IH]; intros Hdom Hlen.
  - unfold countFrom. simpl. lia.
  - apply Forall_cons in Hdom as [Hv Hvs]. simpl in Hlen.
    rewrite constrainedProduct_cons.
    unfold countFrom. simpl fold_left. simpl existsb.
    destruct (HasValue v) eqn:Hhas; simpl orb.
    + change (fold_left _ vs ?t) with (countFrom t vs).
      unfold permutations. simpl (0 =? 0).  cbv iota.
      pose proof (cardinality_constrained v Hhas) as Hone.
      destruct (countFrom_positive vs (cardinality v) 1
                  ltac:(change (60 ^ Z.of_nat 1) with 60; lia) Hvs ltac:(lia))
        as [Heq Hbound].
      rewrite Heq. split; [reflexivity|].
      pose proof (pow60_le_max (1 + length vs) ltac:(lia)). lia.
    + change (fold_left _ vs ?t) with (countFrom t vs).
      apply IH; [assumption|lia].
Qed.

(** Fields with a single value do not change the product. *)
Lemma constrainedProduct_multiValued (vs : list Value) :
  constrainedProduct vs =
  productOf (filter (fun v => 1 < cardinality v) vs).
Proof.
  induction vs as [|v vs IH]; [reflexivity|].
  rewrite constrainedProduct_cons, filter_cons.
  destruct (HasValue v) eqn:Hhas.
  - pose proof (cardinality_constrained v Hhas) as Hone.
    destruct (decide (1 < cardinality v)) as [Hmulti|Hsingle].
    + rewrite productOf_cons, IH. reflexivity.
    + rewrite IH. assert (cardinality v = 1) as -> by lia. lia.
  - pose proof (cardinality_any v Hhas) as Hzero.
    destruct (decide (1 < cardinality v)) as [Hmulti|Hsingle]; [lia|].
    exact IH.
Qed.

Lemma totalOf_product (schedule : Event) :
  withinDomains schedule ->
  totalOf schedule =
  (if constrained schedule then productOf (multiValued schedule) else 0)
  /\ 0 <= totalOf schedule < 2 ^ 63.
Proof.
  intros Hdom. unfold totalOf, constrained, multiValued.
  rewrite <- constrainedProduct_multiValued.
  apply countFrom_zero; [exact Hdom|simpl; lia].
Qed.

(** The second loop keeps the number of entries. *)
Lemma fillWeekday_length (line : list Z) (n : nat) :
  forall (i : nat) (entries filled : list CalendarInterval),
    fillWeekday line n i entries = Some filled ->
    length filled = length entries.
Proof.
  induction n as [|n IH]; intros i entries filled Hfill; simpl in Hfill.
  - injection Hfill as <-. reflexivity.
  - destruct (line !! i) as [d|]; [|discriminate].
    destruct (entries !! i) as [e|]; [|discriminate].
    apply IH in Hfill. rewrite Hfill. apply length_insert.
Qed.

(** The second loop keeps whatever the assignment to [Weekday] keeps. *)
Lemma fillWeekday_keeps (P : CalendarInterval -> Prop) (line : list Z)
    (n : nat) :
  (forall d e, P e -> P (setWeekday d e)) ->
  forall (i : nat) (entries filled : list CalendarInterval),
    Forall P entries ->
    fillWeekday line n i entries = Some filled ->
    Forall P filled.
Proof.
  intros Hset. induction n as [|n IH]; intros i entries filled HP Hfill;
    simpl in Hfill.
  - injection Hfill as <-. exact HP.
  - destruct (line !! i) as [d|]; [|discriminate].
    destruct (entries !! i) as [e|] eqn:He; [|discriminate].
    eapply IH; [|exact Hfill].
    apply Forall_insert; [exact HP|].
    apply Hset. eapply Forall_lookup_1; eassumption.
Qed.

(** The second loop ends without a panic when the line and the entries are
    long enough. *)
Lemma fillWeekday_runs (line : list Z) (n : nat) :
  forall (i : nat) (entries : list CalendarInterval),
    (i + n <= length line)%nat ->
    (i + n <= length entries)%nat ->
    is_Some (fillWeekday line n i entries).
Proof.
  induction n as [|n IH]; intros i entries Hline Hentries; simpl.
  - eexists. reflexivity.
  - destruct (lookup_lt_is_Some_2 line i ltac:(lia)) as [d ->].
    destruct (lookup_lt_is_Some_2 entries i ltac:(lia)) as [e ->].
    apply IH; [lia|]. rewrite length_insert. lia.
Qed.

Lemma makeEntries_length (total : Z) (entries : list CalendarInterval) :
  makeEntries total = Some entries ->
  0 <= total /\ length entries = Z.to_nat total.
Proof.
  unfold makeEntries. destruct (Z.ltb_spec total 0); [discriminate|].
  intros [= <-]. rewrite length_replicate. lia.
Qed.

(** Whatever [spread] does, a run that returns gives [total] entries. *)
Lemma entries_length (spread : list Z -> Z -> Z -> option (list Z * Z))
    (schedule : Event) (entries : list CalendarInterval) :
  getCalendarIntervalsFromSchedule spread schedule = Some entries ->
  0 <= totalOf schedule /\ Z.of_nat (length entries) = totalOf schedule.
Proof.
  unfold getCalendarIntervalsFromSchedule.
  destruct (makeEntries (totalOf schedule)) as [made|] eqn:Hmake;
    [|discriminate].
  apply makeEntries_length in Hmake as [Hpos Hlen].
  destruct (HasValue (WeekDay schedule)).
  - destruct (spread _ _ _) as [[line perm]|]; [|discriminate].
    intros Hfill. apply fillWeekday_length in Hfill. lia.
  - intros [= <-]. lia.
Qed.

(** Only [Weekday] is ever assigned: every other key of every entry is 0. *)
Lemma only_weekday_filled (spread : list Z -> Z -> Z -> option (list Z * Z))
    (schedule : Event) (entries : list CalendarInterval) :
  getCalendarIntervalsFromSchedule spread schedule = Some entries ->
  Forall (fun e => Month e = 0 /\ Day e = 0 /\ Hour e = 0 /\ Minute e = 0)
         entries.
Proof.
  unfold getCalendarIntervalsFromSchedule.
  destruct (makeEntries (totalOf schedule)) as [made|] eqn:Hmake;
    [|discriminate].
  assert (Hzero : Forall (fun e => Month e = 0 /\ Day e = 0 /\ Hour e = 0
                                   /\ Minute e = 0) made).
  { unfold makeEntries in Hmake.
    destruct (totalOf schedule <? 0); [discriminate|].
    injection Hmake as <-. apply Forall_replicate. repeat split. }
  destruct (HasValue (WeekDay schedule)).
  - destruct (spread _ _ _) as [[line perm]|]; [|discriminate].
    apply fillWeekday_keeps; [|exact Hzero].
    intros d e He. exact He.
  - intros [= <-]. exact Hzero.
Qed.

(** The modelled [spread] returns a line of [total] values whenever the
    field has values and [total] is a positive multiple of their number. *)
Lemma spreadModel_line (values : list Z) (total rest : Z) :
  values <> [] -> 1 <= rest ->
  total = Z.of_nat (length values) * rest ->
  exists line perm,
    spreadModel values total 1 = Some (line, perm)
    /\ length line = Z.to_nat total.
Proof.
  intros Hvalues Hrest ->. unfold spreadModel.
  assert (Hn : 1 <= Z.of_nat (length values)).
  { destruct values; [contradiction|simpl; lia]. }
  rewrite Z.mul_1_l.
  destruct (Z.eqb_spec (Z.of_nat (length values)) 0) as [Hzero|_]; [lia|].
  rewrite Z.mul_comm, Z.div_mul by lia.
  destruct (Z.eqb_spec rest 0) as [Hzero|_]; [lia|].
  eexists _, _. split; [reflexivity|].
  rewrite length_map, length_seqZ. reflexivity.
Qed.

(** With the modelled [spread] the function returns on every expression whose
    fields stay within the calendar domains. *)
Lemma materializer_returns (schedule : Event) :
  withinDomains schedule ->
  is_Some (getCalendarIntervalsFromSchedule spreadModel schedule).
Proof.
  intros Hdom.
  destruct (totalOf_product schedule Hdom) as [Htotal Hrange].
  unfold getCalendarIntervalsFromSchedule, makeEntries.
  destruct (Z.ltb_spec (totalOf schedule) 0) as [Hneg|_]; [lia|].
  destruct (HasValue (WeekDay schedule)) eqn:Hhas; [|eexists; reflexivity].
  assert (Hprod : totalOf schedule =
                  cardinality (WeekDay schedule)
                  * constrainedProduct (tail (fieldsOf schedule))
                  /\ 1 <= constrainedProduct (tail (fieldsOf schedule))).
  { unfold totalOf, fieldsOf. unfold countFrom at 1. simpl fold_left.
    rewrite Hhas. unfold permutations. simpl (0 =? 0). cbv iota.
    change (fold_left _ ?l ?t) with (countFrom t l).
    pose proof (cardinality_constrained _ Hhas) as Hone.
    apply Forall_cons in Hdom as [Hv Hvs].
    destruct (countFrom_positive _ (cardinality (WeekDay schedule)) 1
                ltac:(change (60 ^ Z.of_nat 1) with 60; lia) Hvs
                ltac:(simpl; lia)) as [Heq Hbound].
    simpl tail. split; [exact Heq|]. nia. }
  destruct Hprod as [Hprod Hrest].
  destruct (spreadModel_line (GetRangeValues (WeekDay schedule))
              (totalOf schedule) _
              ltac:(destruct (WeekDay schedule); [discriminate|discriminate])
              Hrest Hprod) as (line & perm & -> & Hline).
  apply fillWeekday_runs; rewrite ?length_replicate; lia.
Qed.

(** C1 (as amended). For every calendar expression whose fields stay within
    the calendar domains, the materializer returns, and any run that returns
    gives: when at least one of weekday, month, day, hour and minute is
    constrained, as many entries as the product of the cardinalities of
    those of the five fields that carry more than one value (hence exactly
    one entry when none of them does); when none of the five is constrained,
    no entry. *)
Theorem entry_count (schedule : Event) :
  withinDomains schedule ->
  (exists entries,
     getCalendarIntervalsFromSchedule spreadModel schedule = Some entries)
  /\ (forall spread entries,
        getCalendarIntervalsFromSchedule spread schedule = Some entries ->
        Z.of_nat (length entries) =
        (if constrained schedule then productOf (multiValued schedule)
         else 0)
        /\ (constrained schedule = true -> multiValued schedule = [] ->
            length entries = 1%nat)).
Proof.
  intros Hdom.
  destruct (totalOf_product schedule Hdom) as [Htotal _].
  split; [exact (materializer_returns schedule Hdom)|].
  intros spread entries Hrun.
  apply entries_length in Hrun as [_ Hlen].
  split; [lia|].
  intros Hcons Hnone. rewrite Hcons, Hnone in Htotal.
  change (productOf []) with 1 in Htotal. lia.
Qed.

Lemma entry_count_witness :
  (exists entries,
     getCalendarIntervalsFromSchedule spreadModel halfHourly = Some entries)
  /\ (forall spread entries,
        getCalendarIntervalsFromSchedule spread halfHourly = Some entries ->
        Z.of_nat (length entries) =
        (if constrained halfHourly then productOf (multiValued halfHourly)
         else 0)
        /\ (constrained halfHourly = true -> multiValued halfHourly = [] ->
            length entries = 1%nat)).
Proof.
  apply (entry_count halfHourly).
  unfold withinDomains. simpl. repeat constructor; vm_compute; discriminate.
Defined.

(** C1, as stated, fails on the expression with every field unconstrained:
    it has no multi-valued field, the product is 1, and the materializer
    returns no entry at all. *)
Lemma entry_count_unconstrained :
  multiValued anyEvent = []
  /\ productOf (multiValued anyEvent) = 1
  /\ getCalendarIntervalsFromSchedule spreadModel anyEvent = Some []
  /\ ~ (forall entries,
          getCalendarIntervalsFromSchedule spreadModel anyEvent
          = Some entries ->
          length entries = 1%nat).
Proof.
  split; [reflexivity|]. split; [reflexivity|]. split; [reflexivity|].
  intros Hone. specialize (Hone [] eq_refl). discriminate.
Qed.

(** C2. On [Mon-Fri *-*-* *:0,30:00] the materializer gives 10 entries, two
    for each weekday, and none of them carries a minute (nor an hour): the
    source's comment asks for [Minute = 0] and [Minute = 30] on every
    weekday, and the code never assigns [Minute]. *)
Theorem halfHourly_materialized :
  exists entries,
    getCalendarIntervalsFromSchedules spreadModel [halfHourly] = Some entries
    /\ length entries = 10%nat
    /\ map Weekday entries = [1; 1; 2; 2; 3; 3; 4; 4; 5; 5]
    /\ Forall (fun e => carried (Weekday e) = true
                        /\ carried (Minute e) = false
                        /\ carried (Hour e) = false) entries.
Proof.
  eexists. split; [vm_compute; reflexivity|].
  split; [reflexivity|]. split; [reflexivity|].
  repeat constructor.
Qed.

(** The third example of the source's comment, [*-*-01 *:*:*], asks for one
    entry with [Day = 1]: the entry is there, and its [Day] is not set. *)
Lemma firstOfMonth_day_not_set :
  getCalendarIntervalsFromSchedule spreadModel firstOfMonth
  = Some [zeroInterval].
Proof. reflexivity. Qed.

(** C3. On [Mon-Fri *-*-* *:0,30:00], whatever [spread] does with the
    weekdays, the 10 entries all have [Minute] 0: the combination
    (Monday, minute 30) is in no entry, and the entries cannot be pairwise
    distinct combinations of a weekday and a minute. *)
Theorem halfHourly_minute_never_set
    (spread : list Z -> Z -> Z -> option (list Z * Z))
    (entries : list CalendarInterval) :
  getCalendarIntervalsFromSchedule spread halfHourly = Some entries ->
  length entries = 10%nat
  /\ Forall (fun e => Minute e = 0) entries
  /\ (forall e, e ∈ entries -> ~ (Weekday e = 1 /\ Minute e = 30)).
Proof.
  intros Hrun.
  pose proof (only_weekday_filled spread halfHourly entries Hrun) as Hzero.
  apply entries_length in Hrun as [_ Hlen].
  change (totalOf halfHourly) with 10 in Hlen.
  assert (Hminute : Forall (fun e => Minute e = 0) entries).
  { eapply Forall_impl; [exact Hzero|]. intros e (_ & _ & _ & Hm). exact Hm. }
  split; [lia|]. split; [exact Hminute|].
  intros e Hin [_ Hthirty].
  rewrite Forall_forall in Hminute. specialize (Hminute e Hin). lia.
Qed.

Lemma halfHourly_minute_never_set_witness :
  exists entries,
    getCalendarIntervalsFromSchedule spreadModel halfHourly = Some entries
    /\ length entries = 10%nat
    /\ Forall (fun e => Minute e = 0) entries
    /\ (forall e, e ∈ entries -> ~ (Weekday e = 1 /\ Minute e = 30)).
Proof.
  eexists. split; [vm_compute; reflexivity|].
  apply (halfHourly_minute_never_set spreadModel).
  vm_compute. reflexivity.
Defined.

(** * The native job label *)

Lemma lowerByte_idempotent (c : ascii) : lowerByte (lowerByte c) = lowerByte c.
Proof.
  destruct c as [[] [] [] [] [] [] [] []]; vm_compute; reflexivity.
Qed.

Lemma asciiToLower_idempotent (s : string) :
  asciiToLower (asciiToLower s) = asciiToLower s.
Proof.
  induction s as [|c s IH]; simpl; [reflexivity|].
  rewrite lowerByte_idempotent, IH. reflexivity.
Qed.

(** C10. The job label is the fixed prefix followed by the lowercase of the
    profile name; lowercasing being idempotent, a name and its lowercase
    have the same label, and so have two names that differ only in letter
    case. *)
Theorem getJobName_case_normalized (ToLower : string -> string) :
  (forall s, ToLower (ToLower s) = ToLower s) ->
  forall p q : string,
    getJobName ToLower p = ("local.resticprofile." ++ ToLower p)%string
    /\ getJobName ToLower p = getJobName ToLower (ToLower p)
    /\ (ToLower p = ToLower q -> getJobName ToLower p = getJobName ToLower q).
Proof.
  intros Hidem p q. unfold getJobName, namePrefix.
  split; [reflexivity|]. split.
  - rewrite Hidem. reflexivity.
  - intros ->. reflexivity.
Qed.

Lemma getJobName_case_normalized_witness :
  getJobName asciiToLower "Backup" = "local.resticprofile.backup"%string
  /\ getJobName asciiToLower "Backup"
     = getJobName asciiToLower (asciiToLower "Backup")
  /\ (asciiToLower "Backup" = asciiToLower "BACKUP" ->
      getJobName asciiToLower "Backup" = getJobName asciiToLower "BACKUP").
Proof.
  exact (getJobName_case_normalized asciiToLower asciiToLower_idempotent
           "Backup"%string "BACKUP"%string).
Defined.

(** * Properties of the job lifecycle *)

Import Scheduler.

Section JobProperties.

Variable Native : Type.
Variable detectSchedulePermission : string -> string * bool.
Variable getSchedulePermission : string -> string.
Variable checkPermission : string -> bool.

Ltac run_method :=
  unfold Create, Remove, Status, display, bind, ret, doGetSchedulePermission,
    doDetectSchedulePermission, doCheckPermission, doParseSchedules,
    doDisplayParsedSchedules, doDisplaySchedules, doCreateJob, doRemoveJob,
    doDisplayJobStatus, record, start; simpl.

(** A remove-only job is turned away by [Create] and [Status] before
    anything is called. *)
Lemma Create_removeOnly (j : Job Native) (w : World Native) :
  JobRemoveOnly j = true ->
  Create getSchedulePermission checkPermission j w
  = (Some ErrorJobCanBeRemovedOnly, w).
Proof. intros Hflag. unfold Create. rewrite Hflag. reflexivity. Qed.

Lemma Status_removeOnly (j : Job Native) (w : World Native) :
  JobRemoveOnly j = true -> Status j w = (Some ErrorJobCanBeRemovedOnly, w).
Proof. intros Hflag. unfold Status. rewrite Hflag. reflexivity. Qed.

(** [Remove] without the permission: two permission calls, no handler call. *)
Lemma Remove_denied (j : Job Native) (n : Native) :
  let permission :=
    removePermission detectSchedulePermission getSchedulePermission j in
  checkPermission permission = false ->
  Remove detectSchedulePermission getSchedulePermission checkPermission j
    (start n)
  = (Some (permissionError "remove"),
     {| native := n;
        calls := [(removeResolution j, None);
                  (CallCheckPermission permission, None)] |}).
Proof.
  intros permission Hcheck. subst permission.
  unfold removePermission, removeResolution in *. run_method.
  destruct (JobRemoveOnly j); simpl; rewrite Hcheck; reflexivity.
Qed.

(** [Remove] with the permission: the handler's [RemoveJob] runs once, on the
    resolved permission, and its result is the result. *)
Lemma Remove_allowed (j : Job Native) (n : Native) :
  let permission :=
    removePermission detectSchedulePermission getSchedulePermission j in
  let removed := RemoveJob (handler j) (config j) permission n in
  checkPermission permission = true ->
  Remove detectSchedulePermission getSchedulePermission checkPermission j
    (start n)
  = (fst removed,
     {| native := snd removed;
        calls := [(removeResolution j, None);
                  (CallCheckPermission permission, None);
                  (CallRemoveJob (config j) permission, fst removed)] |}).
Proof.
  intros permission removed Hcheck. subst removed permission.
  unfold removePermission, removeResolution in *. run_method.
  destruct (JobRemoveOnly j); simpl; rewrite Hcheck; simpl;
    destruct (RemoveJob _ _ _ _) as [err n']; reflexivity.
Qed.

(** C4 (as amended). For every remove-only job, [Create] and [Status] return
    [ErrorJobCanBeRemovedOnly] and call nothing (no handler method, no
    permission function); [Remove] invokes the handler's [RemoveJob], once
    and with its result returned, provided the detected permission passes
    the permission check; when it does not, [Remove] returns the
    PermissionError, [RemoveJob] is not invoked (no handler method is) and
    the native state is untouched. *)
Theorem removeOnly_gate (j : Job Native) (n : Native) :
  JobRemoveOnly j = true ->
  let permission := fst (detectSchedulePermission (Permission (config j))) in
  let removed := RemoveJob (handler j) (config j) permission n in
  let run :=
    Remove detectSchedulePermission getSchedulePermission checkPermission j
      (start n) in
  Create getSchedulePermission checkPermission j (start n)
  = (Some ErrorJobCanBeRemovedOnly, start n)
  /\ Status j (start n) = (Some ErrorJobCanBeRemovedOnly, start n)
  /\ (checkPermission permission = true ->
      fst run = fst removed
      /\ native (snd run) = snd removed
      /\ callsTo isRemoveJob (snd run)
         = [(CallRemoveJob (config j) permission, fst removed)])
  /\ (checkPermission permission = false ->
      fst run = Some (permissionError "remove")
      /\ native (snd run) = n
      /\ callsTo isRemoveJob (snd run) = []
      /\ callsTo isHandlerCall (snd run) = []).
Proof.
  intros Hflag permission removed run.
  split; [apply Create_removeOnly; exact Hflag|].
  split; [apply Status_removeOnly; exact Hflag|].
  assert (Hperm : removePermission detectSchedulePermission
                    getSchedulePermission j = permission).
  { unfold removePermission. rewrite Hflag. reflexivity. }
  split.
  - intros Hcheck.
    pose proof (Remove_allowed j n) as Hrun. cbv zeta in Hrun.
    rewrite Hperm in Hrun. specialize (Hrun Hcheck).
    subst run. rewrite Hrun.
    unfold callsTo, removeResolution. rewrite Hflag.
    simpl. repeat split.
  - intros Hcheck.
    pose proof (Remove_denied j n) as Hrun. cbv zeta in Hrun.
    rewrite Hperm in Hrun. specialize (Hrun Hcheck).
    subst run. rewrite Hrun.
    unfold callsTo, removeResolution. rewrite Hflag.
    simpl. repeat split.
Qed.

(** C6 (as amended). [Remove] resolves the permission with
    [detectSchedulePermission] for a remove-only job (only its first result
    is used) and with [getSchedulePermission] otherwise; for every job,
    remove-only or not, a permission that fails the check aborts [Remove]
    with the PermissionError before any handler call; otherwise [Remove]
    delegates to the handler's [RemoveJob] and returns its result. *)
Theorem remove_permission_gate (j : Job Native) (n : Native) :
  let permission :=
    removePermission detectSchedulePermission getSchedulePermission j in
  let removed := RemoveJob (handler j) (config j) permission n in
  let run :=
    Remove detectSchedulePermission getSchedulePermission checkPermission j
      (start n) in
  (checkPermission permission = false ->
   fst run = Some (permissionError "remove")
   /\ native (snd run) = n
   /\ callsTo isHandlerCall (snd run) = [])
  /\ (checkPermission permission = true ->
      fst run = fst removed
      /\ callsTo isHandlerCall (snd run)
         = [(CallRemoveJob (config j) permission, fst removed)])
  /\ (forall detect' : string -> string * bool,
        (forall p, fst (detect' p) = fst (detectSchedulePermission p)) ->
        Remove detect' getSchedulePermission checkPermission j (start n)
        = run).
Proof.
  intros permission removed run. split; [|split].
  - intros Hcheck. subst run. rewrite (Remove_denied j n Hcheck).
    unfold callsTo, removeResolution. simpl.
    destruct (JobRemoveOnly j); repeat split.
  - intros Hcheck. subst run. rewrite (Remove_allowed j n Hcheck).
    unfold callsTo, removeResolution. simpl.
    destruct (JobRemoveOnly j); repeat split.
  - intros detect' Hfst. subst run. run_method.
    destruct (JobRemoveOnly j); simpl; [|reflexivity].
    rewrite Hfst. reflexivity.
Qed.

(** C5. In [Create], a failed permission check returns the PermissionError
    and an error of the handler's [ParseSchedules] is returned as it is, both
    without any call to [CreateJob] (after a failed check the handler is not
    called at all and the native state is untouched); [CreateJob] is called at
    most once, and what it returns is what [Create] returns. *)
Theorem create_fails_fast (j : Job Native) (n : Native) :
  let run := Create getSchedulePermission checkPermission j (start n) in
  let permission := getSchedulePermission (Permission (config j)) in
  (JobRemoveOnly j = false -> checkPermission permission = false ->
   fst run = Some (permissionError "create")
   /\ native (snd run) = n
   /\ callsTo isHandlerCall (snd run) = [])
  /\ (JobRemoveOnly j = false -> checkPermission permission = true ->
      forall err,
        snd (fst (ParseSchedules (handler j) (Schedules (config j)) n))
        = Some err ->
        fst run = Some err
        /\ callsTo isHandlerCall (snd run)
           = [(CallParseSchedules (Schedules (config j)), Some err)])
  /\ (forall c r, In (c, r) (callsTo isCreateJob (snd run)) -> fst run = r)
  /\ (length (callsTo isCreateJob (snd run)) <= 1)%nat.
Proof.
  unfold callsTo. run_method.
  destruct (JobRemoveOnly j) eqn:Hflag; simpl.
  { repeat split; intros; try discriminate; try contradiction; lia. }
  destruct (checkPermission _) eqn:Hcheck; simpl.
  2: { repeat split; intros; try discriminate; try contradiction; lia. }
  destruct (ParseSchedules _ _ _) as [[schedules parseErr] n1]; simpl.
  destruct parseErr as [err|]; simpl.
  { repeat split; intros; try discriminate; try contradiction; try lia.
    - congruence.
    - congruence. }
  destruct (0 <? Z.of_nat (length schedules)); simpl.
  - destruct (CreateJob _ _ _ _ _) as [[err|] n2]; simpl;
      repeat split; intros; try discriminate; try lia;
      match goal with
      | H : _ \/ False |- _ => destruct H as [H|[]]; congruence
      end.
  - destruct (DisplaySchedules _ _ _ _) as [[err|] n2]; simpl.
    { repeat split; intros; try discriminate; try contradiction; lia. }
    destruct (CreateJob _ _ _ _ _) as [[err|] n3]; simpl;
      repeat split; intros; try discriminate; try lia;
      match goal with
      | H : _ \/ False |- _ => destruct H as [H|[]]; congruence
      end.
Qed.

End JobProperties.

(** ** Runs in the example environment *)

Lemma removeOnly_gate_witness :
  let job := backupJob "auto" true false in
  let denied := backupJob "system" true false in
  Create userGet userCheck job (start ["backup"%string])
  = (Some ErrorJobCanBeRemovedOnly, start ["backup"%string])
  /\ Status job (start ["backup"%string])
     = (Some ErrorJobCanBeRemovedOnly, start ["backup"%string])
  /\ (fst (Remove userDetect userGet userCheck job (start ["backup"%string]))
      = None
      /\ native (snd (Remove userDetect userGet userCheck job
                        (start ["backup"%string]))) = []
      /\ callsTo isRemoveJob
           (snd (Remove userDetect userGet userCheck job
                   (start ["backup"%string])))
         = [(CallRemoveJob (config job) "user", None)])
  /\ (fst (Remove userDetect userGet userCheck denied
             (start ["backup"%string]))
      = Some (permissionError "remove")
      /\ native (snd (Remove userDetect userGet userCheck denied
                        (start ["backup"%string]))) = ["backup"%string]
      /\ callsTo isRemoveJob
           (snd (Remove userDetect userGet userCheck denied
                   (start ["backup"%string]))) = []
      /\ callsTo isHandlerCall
           (snd (Remove userDetect userGet userCheck denied
                   (start ["backup"%string]))) = []).
Proof.
  intros job denied.
  destruct (removeOnly_gate (list string) userDetect userGet userCheck job
              ["backup"%string] eq_refl)
    as (Hcreate & Hstatus & Hallowed & _).
  destruct (removeOnly_gate (list string) userDetect userGet userCheck denied
              ["backup"%string] eq_refl)
    as (_ & _ & _ & Hdenied).
  split; [exact Hcreate|]. split; [exact Hstatus|].
  split; [exact (Hallowed eq_refl)|exact (Hdenied eq_refl)].
Defined.

(** C4, as stated, fails on a remove-only job whose permission is "system"
    when the process is not root: [Remove] returns the PermissionError and
    the handler's [RemoveJob] is not invoked; the registration stays. *)
Lemma removeOnly_remove_denied :
  let job := backupJob "system" true false in
  let run :=
    Remove userDetect userGet userCheck job (start ["backup"%string]) in
  JobRemoveOnly job = true
  /\ fst run = Some (permissionError "remove")
  /\ callsTo isRemoveJob (snd run) = []
  /\ native (snd run) = ["backup"%string].
Proof. repeat split. Qed.

Lemma remove_permission_gate_witness :
  let denied := backupJob "system" false false in
  let allowed := backupJob "auto" true false in
  (fst (Remove userDetect userGet userCheck denied (start ["backup"%string]))
   = Some (permissionError "remove")
   /\ native (snd (Remove userDetect userGet userCheck denied
                     (start ["backup"%string]))) = ["backup"%string]
   /\ callsTo isHandlerCall
        (snd (Remove userDetect userGet userCheck denied
                (start ["backup"%string]))) = [])
  /\ (fst (Remove userDetect userGet userCheck allowed
             (start ["backup"%string])) = None
      /\ callsTo isHandlerCall
           (snd (Remove userDetect userGet userCheck allowed
                   (start ["backup"%string])))
         = [(CallRemoveJob (config allowed) "user", None)]).
Proof.
  intros denied allowed. split.
  - exact (proj1 (remove_permission_gate (list string) userDetect userGet
                    userCheck denied ["backup"%string]) eq_refl).
  - exact (proj1 (proj2 (remove_permission_gate (list string) userDetect
                           userGet userCheck allowed ["backup"%string]))
             eq_refl).
Defined.

(** C6, as stated, fails on a remove-only job whose permission is "system"
    when the process is not root: the insufficient permission aborts
    [Remove] with the PermissionError although the job is remove-only, and
    nothing is delegated to the handler. *)
Lemma removeOnly_permission_abort :
  let job := backupJob "system" true false in
  JobRemoveOnly job = true
  /\ Remove userDetect userGet userCheck job (start [])
     = (Some (permissionError "remove"),
        {| native := [];
           calls := [(CallDetectSchedulePermission "system", None);
                     (CallCheckPermission "system", None)] |}).
Proof. split; reflexivity. Qed.

Lemma create_fails_fast_witness :
  (let run := Create userGet userCheck (backupJob "system" false false)
                (start []) in
   fst run = Some (permissionError "create")
   /\ native (snd run) = []
   /\ callsTo isHandlerCall (snd run) = [])
  /\ (let run := Create userGet userCheck emptyScheduleJob (start []) in
      fst run = Some (handlerError "empty schedule")
      /\ callsTo isHandlerCall (snd run)
         = [(CallParseSchedules [""%string],
             Some (handlerError "empty schedule"))])
  /\ (let run := Create userGet userCheck (backupJob "user" false true)
                   (start []) in
      forall c r, In (c, r) (callsTo isCreateJob (snd run)) -> fst run = r).
Proof.
  split; [|split].
  - exact (proj1 (create_fails_fast (list string) userGet userCheck
                    (backupJob "system" false false) []) eq_refl eq_refl).
  - exact (proj1 (proj2 (create_fails_fast (list string) userGet userCheck
                           emptyScheduleJob []))
             eq_refl eq_refl (handlerError "empty schedule") eq_refl).
  - exact (proj1 (proj2 (proj2 (create_fails_fast (list string) userGet
                                  userCheck (backupJob "user" false true)
                                  [])))).
Defined.

(** * Properties of the lock file *)

Import Lock.

(** [TryAcquire] returns true iff the call created the marker: the path had
    none before and holds the caller's afterwards; when it returns false the
    file system and the handle are as they were. *)
Lemma TryAcquire_creates (me : Owner) (l : Handle) (fs : gmap string Owner) :
  let '(acquired, l', fs') := TryAcquire me l fs in
  (acquired = true
   <-> fs !! Lockfile l = None /\ fs' !! Lockfile l = Some me)
  /\ (acquired = false -> fs' = fs /\ l' = l).
Proof.
  unfold TryAcquire. destruct (fs !! Lockfile l) as [other|] eqn:Hmarker.
  - split; [|intros _; split; reflexivity].
    split; [discriminate|]. intros [Hnone _]. discriminate.
  - split; [|discriminate].
    split; [|reflexivity]. intros _. split; [reflexivity|].
    apply lookup_insert_eq.
Qed.

(** C7. Two handles on a path without a marker: the first [TryAcquire]
    returns true, the second handle's returns false while the first holds
    the lock, and after the first handle's [Release] a [TryAcquire] on that
    path (by any handle) returns true again; and [TryAcquire] returns true
    iff the call itself created the marker. *)
Theorem lock_is_exclusive (path : string) (fs : gmap string Owner)
    (first second third : Owner) (again : Handle) :
  fs !! path = None ->
  Lockfile again = path ->
  let '(a1, lock, fs1) := TryAcquire first (NewLock path) fs in
  let '(a2, other, fs2) := TryAcquire second (NewLock path) fs1 in
  let '(released, fs3) := Release lock fs2 in
  let '(a3, _, fs4) := TryAcquire third again fs3 in
  a1 = true /\ a2 = false /\ a3 = true
  /\ fs2 = fs1 /\ fs3 !! path = None /\ fs4 !! path = Some third
  /\ (forall me l fs0,
        fst (fst (TryAcquire me l fs0)) = true
        <-> fs0 !! Lockfile l = None
            /\ snd (TryAcquire me l fs0) !! Lockfile l = Some me).
Proof.
  intros Hfree Hagain. unfold TryAcquire at 1, NewLock. simpl.
  rewrite Hfree.
  unfold TryAcquire at 1. simpl. rewrite lookup_insert_eq.
  unfold Release. simpl. rewrite lookup_insert_eq.
  rewrite decide_True by reflexivity.
  unfold TryAcquire at 1. rewrite Hagain, lookup_delete_eq.
  assert (Hiff : forall me l fs0,
            fst (fst (TryAcquire me l fs0)) = true
            <-> fs0 !! Lockfile l = None
                /\ snd (TryAcquire me l fs0) !! Lockfile l = Some me).
  { intros me l fs0.
    pose proof (TryAcquire_creates me l fs0) as Hcreate.
    destruct (TryAcquire me l fs0) as [[acquired l'] fs']. simpl.
    tauto. }
  split; [reflexivity|]. split; [reflexivity|]. split; [reflexivity|].
  split; [reflexivity|]. split; [reflexivity|].
  split; [apply lookup_insert_eq|exact Hiff].
Qed.

Lemma lock_is_exclusive_witness :
  let '(a1, lock, fs1) :=
    TryAcquire (backupOwner 1) (NewLock "backup.lock") ∅ in
  let '(a2, other, fs2) :=
    TryAcquire (backupOwner 2) (NewLock "backup.lock") fs1 in
  let '(released, fs3) := Release lock fs2 in
  let '(a3, _, fs4) := TryAcquire (backupOwner 3) other fs3 in
  a1 = true /\ a2 = false /\ a3 = true
  /\ fs2 = fs1 /\ fs3 !! "backup.lock"%string = None
  /\ fs4 !! "backup.lock"%string = Some (backupOwner 3)
  /\ (forall me l fs0,
        fst (fst (TryAcquire me l fs0)) = true
        <-> fs0 !! Lockfile l = None
            /\ snd (TryAcquire me l fs0) !! Lockfile l = Some me).
Proof.
  exact (lock_is_exclusive "backup.lock" ∅ (backupOwner 1) (backupOwner 2)
           (backupOwner 3) (NewLock "backup.lock") eq_refl eq_refl).
Defined.

(** * Further properties of the trigger materializer *)

(** The entries of a list of schedules are the entries of its parts, in
    order; a panic in either part is a panic of the whole. *)
Theorem schedules_entries_app
    (spread : list Z -> Z -> Z -> option (list Z * Z))
    (first second : list Event) :
  getCalendarIntervalsFromSchedules spread (first ++ second) =
  match getCalendarIntervalsFromSchedules spread first,
        getCalendarIntervalsFromSchedules spread second with
  | Some entries, Some more => Some (entries ++ more)
  | _, _ => None
  end.
Proof.
  induction first as [|schedule first IH]; simpl.
  - destruct (getCalendarIntervalsFromSchedules spread second); reflexivity.
  - destruct (getCalendarIntervalsFromSchedule spread schedule) as [entries|];
      [|reflexivity].
    rewrite IH.
    destruct (getCalendarIntervalsFromSchedules spread first) as [more|];
      [|reflexivity].
    destruct (getCalendarIntervalsFromSchedules spread second) as [last|];
      [|reflexivity].
    rewrite app_assoc. reflexivity.
Qed.

(** With the modelled [spread] a list of schedules within the calendar
    domains is materialized without a panic. *)
Lemma schedules_materialize (schedules : list Event) :
  Forall withinDomains schedules ->
  exists entries,
    getCalendarIntervalsFromSchedules spreadModel schedules = Some entries.
Proof.
  intros Hdom.
  induction Hdom as [|schedule schedules Hone Hall IH]; simpl.
  - eexists. reflexivity.
  - destruct (materializer_returns schedule Hone) as [entries ->].
    destruct IH as [more ->]. eexists. reflexivity.
Qed.

(** For schedules within the calendar domains the materializer returns, and
    any run that returns gives as many entries as the totals of the
    schedules add up to, none of them negative. *)
Theorem schedules_entry_count (schedules : list Event) :
  Forall withinDomains schedules ->
  (exists entries,
     getCalendarIntervalsFromSchedules spreadModel schedules = Some entries)
  /\ (forall spread entries,
        getCalendarIntervalsFromSchedules spread schedules = Some entries ->
        Z.of_nat (length entries) = Darwin.plannedEntries schedules).
Proof.
  intros Hdom. split.
  - exact (schedules_materialize schedules Hdom).
  - intros spread. clear Hdom.
    induction schedules as [|schedule schedules IH]; intros entries Hrun;
      simpl in Hrun.
    + injection Hrun as <-. reflexivity.
    + destruct (getCalendarIntervalsFromSchedule spread schedule)
        as [one|] eqn:Hone; [|discriminate].
      destruct (getCalendarIntervalsFromSchedules spread schedules)
        as [more|]; [|discriminate].
      injection Hrun as <-.
      apply entries_length in Hone as [_ Hlen].
      specialize (IH more eq_refl).
      unfold Darwin.plannedEntries in *. simpl.
      rewrite length_app, Nat2Z.inj_add. lia.
Qed.

Lemma schedules_entry_count_witness :
  (exists entries,
     getCalendarIntervalsFromSchedules spreadModel
       [halfHourly; firstOfMonth; anyEvent] = Some entries)
  /\ (forall spread entries,
        getCalendarIntervalsFromSchedules spread
          [halfHourly; firstOfMonth; anyEvent] = Some entries ->
        Z.of_nat (length entries) = 11).
Proof.
  apply (schedules_entry_count [halfHourly; firstOfMonth; anyEvent]).
  repeat constructor; vm_compute; discriminate.
Defined.

(** Whatever the schedules and whatever [spread] does, no entry ever has a
    month, a day, an hour or a minute: [Weekday] is the only key assigned. *)
Theorem schedules_only_weekday
    (spread : list Z -> Z -> Z -> option (list Z * Z))
    (schedules : list Event) (entries : list CalendarInterval) :
  getCalendarIntervalsFromSchedules spread schedules = Some entries ->
  Forall (fun e => Month e = 0 /\ Day e = 0 /\ Hour e = 0 /\ Minute e = 0)
         entries.
Proof.
  revert entries.
  induction schedules as [|schedule schedules IH]; intros entries Hrun;
    simpl in Hrun.
  - injection Hrun as <-. constructor.
  - destruct (getCalendarIntervalsFromSchedule spread schedule)
      as [one|] eqn:Hone; [|discriminate].
    destruct (getCalendarIntervalsFromSchedules spread schedules)
      as [more|]; [|discriminate].
    injection Hrun as <-. apply Forall_app. split.
    + exact (only_weekday_filled spread schedule one Hone).
    + exact (IH more eq_refl).
Qed.

Lemma schedules_only_weekday_witness :
  exists entries,
    getCalendarIntervalsFromSchedules spreadModel [halfHourly; firstOfMonth]
    = Some entries
    /\ Forall (fun e => Month e = 0 /\ Day e = 0 /\ Hour e = 0
                        /\ Minute e = 0) entries.
Proof.
  eexists. split; [vm_compute; reflexivity|].
  apply (schedules_only_weekday spreadModel [halfHourly; firstOfMonth]).
  vm_compute. reflexivity.
Defined.

(** A schedule without a weekday gives [total] entries that are all the
    zero value, and [spread] is not consulted. *)
Theorem no_weekday_entries_empty
    (spread : list Z -> Z -> Z -> option (list Z * Z)) (schedule : Event) :
  withinDomains schedule ->
  HasValue (WeekDay schedule) = false ->
  getCalendarIntervalsFromSchedule spread schedule
  = Some (replicate (Z.to_nat (totalOf schedule)) zeroInterval).
Proof.
  intros Hdom Hany.
  destruct (totalOf_product schedule Hdom) as [_ Hrange].
  unfold getCalendarIntervalsFromSchedule, makeEntries.
  destruct (Z.ltb_spec (totalOf schedule) 0) as [Hneg|_]; [lia|].
  rewrite Hany. reflexivity.
Qed.

Lemma no_weekday_entries_empty_witness :
  getCalendarIntervalsFromSchedule (fun _ _ _ => None) firstOfMonth
  = Some (replicate (Z.to_nat (totalOf firstOfMonth)) zeroInterval).
Proof.
  apply (no_weekday_entries_empty (fun _ _ _ => None) firstOfMonth).
  - repeat constructor; vm_compute; discriminate.
  - reflexivity.
Defined.

(** The second loop writes the line into the weekdays, entry by entry. *)
Lemma fillWeekday_writes (line : list Z) (n : nat) :
  forall (i : nat) (done rest : list CalendarInterval),
    length done = i ->
    (i + n <= length line)%nat ->
    fillWeekday line n i (done ++ replicate n zeroInterval ++ rest)
    = Some (done
            ++ map (fun d => setWeekday d zeroInterval) (take n (drop i line))
            ++ rest).
Proof.
  induction n as [|n IH]; intros i done rest Hdone Hline; simpl.
  - reflexivity.
  - destruct (lookup_lt_is_Some_2 line i ltac:(lia)) as [d Hd].
    rewrite Hd.
    rewrite lookup_app_r by lia.
    replace (i - length done)%nat with 0%nat by lia. simpl.
    rewrite insert_app_r_alt by lia.
    replace (i - length done)%nat with 0%nat by lia. simpl.
    specialize (IH (S i) (done ++ [setWeekday d zeroInterval]) rest).
    rewrite <- app_assoc in IH. simpl in IH.
    rewrite IH by (rewrite ?length_app; simpl; lia).
    rewrite (drop_S line d i Hd). simpl.
    rewrite <- app_assoc. reflexivity.
Qed.

(** The second loop panics when the line is shorter than the number of
    entries. *)
Lemma fillWeekday_short_line (line : list Z) (n : nat) :
  forall (i : nat) (entries : list CalendarInterval),
    (i <= length line)%nat ->
    (length line < i + n)%nat ->
    fillWeekday line n i entries = None.
Proof.
  induction n as [|n IH]; intros i entries Hi Hshort; [lia|]. simpl.
  destruct (line !! i) as [d|] eqn:Hd; [|reflexivity].
  destruct (entries !! i) as [e|]; [|reflexivity].
  apply lookup_lt_Some in Hd. apply IH; lia.
Qed.

(** With a weekday, the function returns iff the line that [spread] hands
    back has at least [total] values (a shorter line is an index out of
    range); the entries are then the first [total] values of the line, one
    weekday each and nothing else. *)
Theorem weekday_entries_follow_line
    (spread : list Z -> Z -> Z -> option (list Z * Z)) (schedule : Event)
    (line : list Z) (permutation : Z) :
  withinDomains schedule ->
  HasValue (WeekDay schedule) = true ->
  spread (GetRangeValues (WeekDay schedule)) (totalOf schedule) 1
  = Some (line, permutation) ->
  let total := Z.to_nat (totalOf schedule) in
  getCalendarIntervalsFromSchedule spread schedule =
  if decide (total <= length line)%nat
  then Some (map (fun d => setWeekday d zeroInterval) (take total line))
  else None.
Proof.
  intros Hdom Hhas Hspread total.
  destruct (totalOf_product schedule Hdom) as [_ Hrange].
  unfold getCalendarIntervalsFromSchedule, makeEntries.
  destruct (Z.ltb_spec (totalOf schedule) 0) as [Hneg|_]; [lia|].
  rewrite Hhas, Hspread. fold total.
  destruct (decide (total <= length line)%nat) as [Hlong|Hshort].
  - pose proof (fillWeekday_writes line total 0 [] [] eq_refl ltac:(lia))
      as Hfill.
    simpl in Hfill. rewrite !app_nil_r in Hfill. exact Hfill.
  - apply fillWeekday_short_line; lia.
Qed.

Lemma weekday_entries_follow_line_witness :
  getCalendarIntervalsFromSchedule
    (fun values _ _ => Some (values ++ values, 5)) halfHourly
  = Some (map (fun d => setWeekday d zeroInterval)
              [1; 2; 3; 4; 5; 1; 2; 3; 4; 5]).
Proof.
  apply (weekday_entries_follow_line
           (fun values _ _ => Some (values ++ values, 5)) halfHourly
           [1; 2; 3; 4; 5; 1; 2; 3; 4; 5] 5).
  - repeat constructor; vm_compute; discriminate.
  - reflexivity.
  - reflexivity.
Defined.

(** * Further properties of the job label *)

Lemma append_cancel_prefix (prefix a b : string) :
  (prefix ++ a)%string = (prefix ++ b)%string -> a = b.
Proof.
  induction prefix as [|c prefix IH]; simpl; intros Heq; [exact Heq|].
  injection Heq as Heq. exact (IH Heq).
Qed.

(** Two profile names have the same job label iff their lowercase forms are
    equal: names that differ by more than letter case never collide. *)
Theorem getJobName_same_label (ToLower : string -> string) (p q : string) :
  getJobName ToLower p = getJobName ToLower q <-> ToLower p = ToLower q.
Proof.
  unfold getJobName. split.
  - apply append_cancel_prefix.
  - intros ->. reflexivity.
Qed.

(** * Further properties of the job lifecycle *)

Section MoreJobProperties.

Import Calls.

Variable Native : Type.
Variable detectSchedulePermission : string -> string * bool.
Variable getSchedulePermission : string -> string.
Variable checkPermission : string -> bool.

Ltac run_job :=
  unfold Create, Remove, Status, Accessible, display, bind, ret,
    doGetSchedulePermission, doDetectSchedulePermission, doCheckPermission,
    doParseSchedules, doDisplayParsedSchedules, doDisplaySchedules,
    doCreateJob, doRemoveJob, doDisplayJobStatus, record, start, callsTo;
  simpl.

(** [Status] only looks: it never calls [CreateJob] or [RemoveJob] and no
    permission function; an error of [ParseSchedules] is returned as it is
    and [DisplayJobStatus] is then not called. *)
Theorem status_only_looks (j : Job Native) (n : Native) :
  let run := Status j (start n) in
  callsTo isCreateJob (snd run) = []
  /\ callsTo isRemoveJob (snd run) = []
  /\ callsTo isPermissionCall (snd run) = []
  /\ (JobRemoveOnly j = false ->
      forall err,
        snd (fst (ParseSchedules (handler j) (Schedules (config j)) n))
        = Some err ->
        fst run = Some err
        /\ callsTo isDisplayJobStatus (snd run) = []).
Proof.
  run_job.
  destruct (JobRemoveOnly j) eqn:Hflag; simpl.
  { repeat split; intros; discriminate. }
  destruct (ParseSchedules _ _ _) as [[schedules parseErr] n1]; simpl.
  destruct parseErr as [err|]; simpl.
  { repeat split; intros; congruence. }
  destruct (0 <? Z.of_nat (length schedules)); simpl.
  - destruct (DisplayJobStatus _ _ _) as [[err|] n2]; simpl;
      repeat split; intros; discriminate.
  - destruct (DisplaySchedules _ _ _ _) as [[err|] n2]; simpl.
    { repeat split; intros; discriminate. }
    destruct (DisplayJobStatus _ _ _) as [[err|] n3]; simpl;
      repeat split; intros; discriminate.
Qed.

(** When [ParseSchedules] returns no schedule and no error, the raw
    schedules are displayed instead, and an error of [DisplaySchedules] ends
    [Create] before [CreateJob] and [Status] before [DisplayJobStatus]. *)
Theorem display_failure_aborts (j : Job Native) (n n1 n2 : Native)
    (err : error) :
  JobRemoveOnly j = false ->
  ParseSchedules (handler j) (Schedules (config j)) n = (([], None), n1) ->
  DisplaySchedules (handler j) (SubTitle (config j)) (Schedules (config j))
    n1 = (Some err, n2) ->
  (checkPermission (getSchedulePermission (Permission (config j))) = true ->
   let run := Create getSchedulePermission checkPermission j (start n) in
   fst run = Some err
   /\ native (snd run) = n2
   /\ callsTo isCreateJob (snd run) = [])
  /\ (let run := Status j (start n) in
      fst run = Some err
      /\ native (snd run) = n2
      /\ callsTo isDisplayJobStatus (snd run) = []).
Proof.
  intros Hflag Hparse Hdisplay. split.
  - intros Hcheck. run_job.
    rewrite Hflag. simpl. rewrite Hcheck. simpl. rewrite Hparse. simpl.
    rewrite Hdisplay. simpl. repeat split.
  - run_job. rewrite Hflag. simpl. rewrite Hparse. simpl.
    rewrite Hdisplay. simpl. repeat split.
Qed.

(** Whenever [Create] calls [CreateJob], the job is not remove-only, the
    permission handed over is the one [getSchedulePermission] resolved and
    [checkPermission] accepted, and the schedules are the ones
    [ParseSchedules] returned without an error. *)
Theorem CreateJob_call_arguments (j : Job Native) (n : Native)
    (c : ScheduleConfig) (schedules : list Calendar.Event)
    (permission : string) (r : option error) :
  In (CallCreateJob c schedules permission, r)
     (calls (snd (Create getSchedulePermission checkPermission j (start n))))
  ->
  JobRemoveOnly j = false
  /\ c = config j
  /\ permission = getSchedulePermission (Permission (config j))
  /\ checkPermission permission = true
  /\ fst (ParseSchedules (handler j) (Schedules (config j)) n)
     = (schedules, None).
Proof.
  run_job.
  destruct (JobRemoveOnly j) eqn:Hflag; simpl; [intros []|].
  destruct (checkPermission _) eqn:Hcheck; simpl.
  2: { intros [H|[H|[]]]; discriminate. }
  destruct (ParseSchedules _ _ _) as [[parsed parseErr] n1]; simpl.
  destruct parseErr as [err|]; simpl.
  { intros [H|[H|[H|[]]]]; discriminate. }
  destruct (0 <? Z.of_nat (length parsed)); simpl.
  - destruct (CreateJob _ _ _ _ _) as [[err|] n2]; simpl;
      intros [H|[H|[H|[H|[H|[]]]]]]; try discriminate;
      injection H as <- <- <- <-; repeat split; assumption.
  - destruct (DisplaySchedules _ _ _ _) as [[err|] n2]; simpl.
    { intros [H|[H|[H|[H|[]]]]]; discriminate. }
    destruct (CreateJob _ _ _ _ _) as [[err|] n3]; simpl;
      intros [H|[H|[H|[H|[H|[]]]]]]; try discriminate;
      injection H as <- <- <- <-; repeat split; assumption.
Qed.

(** [Accessible] decides on the permission [detectSchedulePermission]
    gives, without a call to the handler or a change of the native state;
    for a remove-only job it is true exactly when [Remove] gets to the
    handler's [RemoveJob]. *)
Theorem accessible_foretells_remove (j : Job Native) (n : Native) :
  let access := Accessible detectSchedulePermission checkPermission j
                  (start n) in
  let removal := Remove detectSchedulePermission getSchedulePermission
                   checkPermission j (start n) in
  native (snd access) = n
  /\ callsTo isHandlerCall (snd access) = []
  /\ (JobRemoveOnly j = true ->
      (fst access = true <-> callsTo isRemoveJob (snd removal) <> [])
      /\ (fst access = false ->
          fst removal = Some (permissionError "remove"))).
Proof.
  run_job. split; [reflexivity|]. split; [reflexivity|].
  intros Hflag. rewrite Hflag. simpl.
  destruct (checkPermission _) eqn:Hcheck; simpl.
  - destruct (RemoveJob _ _ _ _) as [err n1]; simpl.
    split; [|discriminate]. split; [discriminate|reflexivity].
  - split; [|reflexivity]. split; [discriminate|]. intros H. contradiction.
Qed.

(** What is displayed: with at least one parsed schedule, [Status] and a
    permitted [Create] call [DisplayParsedSchedules] once, on the parsed
    schedules, and never [DisplaySchedules]; with none they call
    [DisplaySchedules] once, on the raw schedules of the configuration. *)
Theorem display_follows_parse (j : Job Native) (n n1 : Native)
    (schedules : list Calendar.Event) :
  JobRemoveOnly j = false ->
  ParseSchedules (handler j) (Schedules (config j)) n
  = ((schedules, None), n1) ->
  let parsed :=
    [(CallDisplayParsedSchedules (SubTitle (config j)) schedules, None)] in
  let raw (err : option error) :=
    [(CallDisplaySchedules (SubTitle (config j)) (Schedules (config j)),
      err)] in
  let shown (w : World Native) :=
    (callsTo isDisplayParsedSchedules w, callsTo isDisplaySchedules w) in
  let expected :=
    if decide (schedules = []) then
      ([], raw (fst (DisplaySchedules (handler j) (SubTitle (config j))
                       (Schedules (config j)) n1)))
    else (parsed, []) in
  shown (snd (Status j (start n))) = expected
  /\ (checkPermission (getSchedulePermission (Permission (config j))) = true
      -> shown (snd (Create getSchedulePermission checkPermission j
                       (start n))) = expected).
Proof.
  intros Hflag Hparse parsed raw shown expected.
  subst parsed raw shown expected. split.
  - run_job. rewrite Hflag. simpl. rewrite Hparse. simpl.
    destruct schedules as [|schedule schedules]; simpl.
    + destruct (DisplaySchedules _ _ _ _) as [[err|] n2]; simpl;
        [reflexivity|].
      destruct (DisplayJobStatus _ _ _) as [[err|] n3]; reflexivity.
    + destruct (DisplayJobStatus _ _ _) as [[err|] n3]; reflexivity.
  - intros Hcheck. run_job. rewrite Hflag. simpl. rewrite Hcheck. simpl.
    rewrite Hparse. simpl.
    destruct schedules as [|schedule schedules]; simpl.
    + destruct (DisplaySchedules _ _ _ _) as [[err|] n2]; simpl;
        [reflexivity|].
      destruct (CreateJob _ _ _ _ _) as [[err|] n3]; reflexivity.
    + destruct (CreateJob _ _ _ _ _) as [[err|] n3]; reflexivity.
Qed.

End MoreJobProperties.

Lemma status_only_looks_witness :
  let run := Status emptyScheduleJob (start []) in
  fst run = Some (handlerError "empty schedule")
  /\ callsTo Calls.isDisplayJobStatus (snd run) = [].
Proof.
  exact (proj2 (proj2 (proj2 (status_only_looks (list string)
                                emptyScheduleJob [])))
           eq_refl (handlerError "empty schedule") eq_refl).
Defined.

Lemma display_failure_aborts_witness :
  (let run := Create userGet userCheck (Calls.textJob true) (start []) in
   fst run = Some (handlerError "cannot run the analyzer")
   /\ native (snd run) = []
   /\ callsTo isCreateJob (snd run) = [])
  /\ (let run := Status (Calls.textJob true) (start []) in
      fst run = Some (handlerError "cannot run the analyzer")
      /\ native (snd run) = []
      /\ callsTo Calls.isDisplayJobStatus (snd run) = []).
Proof.
  destruct (display_failure_aborts (list string) userGet userCheck
              (Calls.textJob true) [] [] []
              (handlerError "cannot run the analyzer")
              eq_refl eq_refl eq_refl) as [Hcreate Hstatus].
  split; [exact (Hcreate eq_refl)|exact Hstatus].
Defined.

Lemma CreateJob_call_arguments_witness :
  JobRemoveOnly (backupJob "user" false false) = false
  /\ backupConfig "user" false = config (backupJob "user" false false)
  /\ "user"%string = userGet (Permission (backupConfig "user" false))
  /\ userCheck "user" = true
  /\ fst (ParseSchedules (memoryHandler false)
            (Schedules (backupConfig "user" false)) [])
     = ([anyEvent], None).
Proof.
  apply (CreateJob_call_arguments (list string) userGet userCheck
           (backupJob "user" false false) [] (backupConfig "user" false)
           [anyEvent] "user" None).
  vm_compute. do 4 right. left. reflexivity.
Defined.

Lemma accessible_foretells_remove_witness :
  let job := backupJob "system" true false in
  let access := Accessible userDetect userCheck job (start []) in
  let removal := Remove userDetect userGet userCheck job (start []) in
  (fst access = true <-> callsTo isRemoveJob (snd removal) <> [])
  /\ (fst access = false -> fst removal = Some (permissionError "remove")).
Proof.
  exact (proj2 (proj2 (accessible_foretells_remove (list string) userDetect
                         userGet userCheck (backupJob "system" true false)
                         [])) eq_refl).
Defined.

Lemma display_follows_parse_witness :
  let job := backupJob "user" false false in
  let shown (w : World (list string)) :=
    (callsTo Calls.isDisplayParsedSchedules w,
     callsTo Calls.isDisplaySchedules w) in
  shown (snd (Status job (start [])))
  = ([(CallDisplayParsedSchedules "backup" [anyEvent], None)], [])
  /\ (userCheck (userGet (Permission (config job))) = true ->
      shown (snd (Create userGet userCheck job (start [])))
      = ([(CallDisplayParsedSchedules "backup" [anyEvent], None)], [])).
Proof.
  exact (display_follows_parse (list string) userGet userCheck
           (backupJob "user" false false) [] [] [anyEvent]
           eq_refl eq_refl).
Defined.

(** * Properties of the agent file and of launchctl *)

Section AgentProperties.

Import Darwin.

Variable Sys : Type.
Variable os : System Sys.
Variable Args0 : string.
Variable ToLower : string -> string.
Variable pathJoin : list string -> string.
Variable absolutePathToBinary : string -> string -> string.
Variable spread : list Z -> Z -> Z -> option (list Z * Z).

Ltac run_agent :=
  unfold createJob, RemoveJob, displayStatus, checkSystem, bind, ret, panic,
    osGetwd, osUserHomeDir, osCreate, plistEncode, fileClose, execRun,
    osRemove, execLookPath, did, start; simpl.

(** [RemoveJob] gives up before touching anything when the home directory
    is unknown, and keeps the agent file when [launchctl unload] fails: the
    error is returned and [os.Remove] is not called. *)
Theorem RemoveJob_keeps_file_on_failure (profileName : string) (s : Sys) :
  let run := RemoveJob os ToLower pathJoin profileName (start s) in
  (forall err,
     UserHomeDir os s = inr err ->
     run = Some (Some err, {| sys := s; effects := [OsUserHomeDir] |}))
  /\ (forall home err,
        UserHomeDir os s = inl home ->
        let name := getJobName ToLower profileName in
        let stopped := snd (Run os launchctlBin ["stop"%string; name] s) in
        let unload :=
          Run os launchctlBin
            ["unload"%string; agentFile pathJoin home name] stopped in
        fst unload = Some err ->
        exists w,
          run = Some (Some err, w)
          /\ sys w = snd unload
          /\ List.filter isOsRemove (effects w) = []).
Proof.
  split.
  - intros err Hhome. run_agent. rewrite Hhome. reflexivity.
  - intros home err Hhome name stopped unload Hunload.
    subst unload stopped name. run_agent. rewrite Hhome. simpl.
    destruct (Run os launchctlBin _ s) as [stopErr s1]; simpl in *.
    destruct (Run os launchctlBin _ s1) as [unloadErr s2]; simpl in *.
    subst unloadErr. eexists. split; [reflexivity|]. split; reflexivity.
Qed.

(** An error of [launchctl stop] is ignored: once the home directory is
    known and [launchctl unload] succeeds, [RemoveJob] removes the agent
    file and returns what [os.Remove] returns. *)
Theorem RemoveJob_ignores_stop_failure (profileName home : string)
    (s : Sys) :
  UserHomeDir os s = inl home ->
  let name := getJobName ToLower profileName in
  let file := agentFile pathJoin home name in
  let stopped := snd (Run os launchctlBin ["stop"%string; name] s) in
  let unload := Run os launchctlBin ["unload"%string; file] stopped in
  fst unload = None ->
  RemoveJob os ToLower pathJoin profileName (start s)
  = Some (fst (Remove os file (snd unload)),
          {| sys := snd (Remove os file (snd unload));
             effects := [OsUserHomeDir;
                         ExecRun launchctlBin ["stop"%string; name];
                         ExecRun launchctlBin ["unload"%string; file];
                         OsRemove file] |}).
Proof.
  intros Hhome name file stopped unload Hunload.
  subst unload stopped file name. run_agent. rewrite Hhome. simpl.
  destruct (Run os launchctlBin _ s) as [stopErr s1]; simpl in *.
  destruct (Run os launchctlBin _ s1) as [unloadErr s2]; simpl in *.
  subst unloadErr. simpl.
  destruct (Remove os _ s2) as [removeErr s3]; reflexivity.
Qed.

(** [createJob] only writes the agent file: it runs no command (the agent is
    neither loaded nor started), looks up no binary and removes no file. *)
Theorem createJob_runs_no_command (j : Job) (s : Sys) (r : option error)
    (w : World Sys) :
  createJob os Args0 ToLower pathJoin absolutePathToBinary spread j (start s)
  = Some (r, w) ->
  Forall (fun e => match e with
                   | ExecRun _ _ | ExecLookPath _ | OsRemove _ => False
                   | _ => True
                   end) (effects w).
Proof.
  run_agent.
  destruct (Getwd os s) as [wd|err]; simpl.
  2: { intros [= <- <-]. repeat constructor. }
  destruct (UserHomeDir os s) as [home|err]; simpl.
  2: { intros [= <- <-]. repeat constructor. }
  destruct (getCalendarIntervalsFromSchedules spread (schedules j))
    as [intervals|]; simpl; [|discriminate].
  destruct (Create os _ s) as [[err|] s1]; simpl.
  { intros [= <- <-]. repeat constructor. }
  destruct (Encode os _ _ s1) as [[err|] s2]; simpl;
    intros [= <- <-]; repeat constructor.
Qed.

(** [createJob] fails fast: without the working directory or the home
    directory it returns the error and creates no file; when the file cannot
    be created it returns the error and nothing is encoded or closed. *)
Theorem createJob_fails_fast (j : Job) (s : Sys) :
  let run :=
    createJob os Args0 ToLower pathJoin absolutePathToBinary spread j
      (start s) in
  (forall err,
     Getwd os s = inr err ->
     run = Some (Some err, {| sys := s; effects := [OsGetwd] |}))
  /\ (forall wd err,
        Getwd os s = inl wd -> UserHomeDir os s = inr err ->
        run = Some (Some err,
                    {| sys := s; effects := [OsGetwd; OsUserHomeDir] |}))
  /\ (forall wd home intervals err,
        Getwd os s = inl wd -> UserHomeDir os s = inl home ->
        getCalendarIntervalsFromSchedules spread (schedules j)
        = Some intervals ->
        let file :=
          agentFile pathJoin home
            (getJobName ToLower (Name (profile j))) in
        fst (Create os file s) = Some err ->
        run = Some (Some err,
                    {| sys := snd (Create os file s);
                       effects := [OsGetwd; OsUserHomeDir; OsCreate file]
                    |})).
Proof.
  split; [|split].
  - intros err Hwd. run_agent. rewrite Hwd. reflexivity.
  - intros wd err Hwd Hhome. run_agent. rewrite Hwd. simpl.
    rewrite Hhome. reflexivity.
  - intros wd home intervals err Hwd Hhome Hintervals file Hcreate.
    subst file. run_agent. rewrite Hwd. simpl. rewrite Hhome. simpl.
    rewrite Hintervals. simpl.
    destruct (Create os _ s) as [createErr s1]; simpl in *.
    subst createErr. reflexivity.
Qed.

(** Once the file is created, [createJob] encodes the agent into it, closes
    it whether the encoding fails or not, and returns what the encoder
    returns. *)
Theorem createJob_encodes_and_closes (j : Job) (s : Sys) (wd home : string)
    (intervals : list CalendarInterval) :
  Getwd os s = inl wd ->
  UserHomeDir os s = inl home ->
  getCalendarIntervalsFromSchedules spread (schedules j) = Some intervals ->
  let file :=
    agentFile pathJoin home (getJobName ToLower (Name (profile j))) in
  let job := launchJob Args0 ToLower absolutePathToBinary j wd intervals in
  fst (Create os file s) = None ->
  let encoded := Encode os file job (snd (Create os file s)) in
  createJob os Args0 ToLower pathJoin absolutePathToBinary spread j (start s)
  = Some (fst encoded,
          {| sys := Close os file (snd encoded);
             effects := [OsGetwd; OsUserHomeDir; OsCreate file;
                         PlistEncode file job; FileClose file] |}).
Proof.
  intros Hwd Hhome Hintervals file job Hcreate encoded.
  subst encoded job file. run_agent. rewrite Hwd. simpl. rewrite Hhome.
  simpl. rewrite Hintervals. simpl.
  destruct (Create os _ s) as [createErr s1]; simpl in *.
  subst createErr. simpl.
  destruct (Encode os _ _ s1) as [[err|] s2]; reflexivity.
Qed.

(** Profile names with the same lowercase form address the same agent: the
    file [createJob] creates and encodes for one is the file [RemoveJob]
    unloads and removes for the other, and the label written into it is the
    label [RemoveJob] stops and [displayStatus] lists. *)
Theorem agent_addressed_by_lowercase (j : Job) (profileName home : string)
    (s s' : Sys) (r r' : option error) (w w' : World Sys) :
  ToLower (Name (profile j)) = ToLower profileName ->
  UserHomeDir os s = inl home ->
  UserHomeDir os s' = inl home ->
  createJob os Args0 ToLower pathJoin absolutePathToBinary spread j (start s)
  = Some (r, w) ->
  RemoveJob os ToLower pathJoin profileName (start s') = Some (r', w') ->
  let label := getJobName ToLower profileName in
  let file := agentFile pathJoin home label in
  Forall (fun e => match e with
                   | OsCreate f | FileClose f => f = file
                   | PlistEncode f job => f = file /\ Label job = label
                   | _ => True
                   end) (effects w)
  /\ Forall (fun e => match e with
                      | ExecRun bin args =>
                          bin = launchctlBin
                          /\ (args = ["stop"%string; label]
                              \/ args = ["unload"%string; file])
                      | OsRemove f => f = file
                      | _ => True
                      end) (effects w')
  /\ forall s'',
       option_map (fun run => effects (snd run))
         (displayStatus os ToLower j (start s''))
       = Some [ExecRun launchctlBin ["list"%string; label]].
Proof.
  intros Hlower Hhome Hhome' Hcreate Hremove label file.
  assert (Hlabel : getJobName ToLower (Name (profile j)) = label).
  { unfold label, getJobName. rewrite Hlower. reflexivity. }
  split; [|split].
  - revert Hcreate. run_agent.
    destruct (Getwd os s) as [wd|err]; simpl.
    2: { intros [= <- <-]. repeat constructor. }
    rewrite Hhome. simpl.
    destruct (getCalendarIntervalsFromSchedules spread (schedules j))
      as [intervals|]; simpl; [|discriminate].
    rewrite Hlabel. fold file.
    destruct (Create os file s) as [[err|] s1]; simpl.
    { intros [= <- <-]. repeat constructor. }
    destruct (Encode os file _ s1) as [[err|] s2]; simpl;
      intros [= <- <-]; repeat constructor; simpl; assumption.
  - revert Hremove. run_agent. rewrite Hhome'. simpl. fold label. fold file.
    destruct (Run os launchctlBin _ s') as [stopErr s1]; simpl.
    destruct (Run os launchctlBin _ s1) as [[err|] s2]; simpl.
    { intros [= <- <-].
      repeat first [apply Forall_nil | apply Forall_cons; split];
        simpl; auto. }
    destruct (Remove os file s2) as [removeErr s3]; simpl.
    intros [= <- <-].
    repeat first [apply Forall_nil | apply Forall_cons; split]; simpl; auto.
  - intros s''. run_agent. rewrite Hlabel.
    destruct (Run os launchctlBin _ s'') as [err s1]. reflexivity.
Qed.

End AgentProperties.

(** ** Runs on the machine of a user *)

Section AgentRuns.

Import Darwin.

Notation "'createBackup'" :=
  (createJob memorySystem "resticprofile" asciiToLower joinPath
     underDirectory spreadModel) (only parsing).

Notation "'removeBackup'" :=
  (RemoveJob memorySystem asciiToLower joinPath) (only parsing).

Lemma RemoveJob_keeps_file_on_failure_witness :
  removeBackup "Backup" (start (emptyMachine None))
  = Some (Some (foreignError "$HOME is not defined"),
          {| sys := emptyMachine None; effects := [OsUserHomeDir] |})
  /\ exists w,
       removeBackup "Backup" (start (userMachine false))
       = Some (Some (foreignError "exit status 1"), w)
       /\ sys w = userMachine false
       /\ List.filter isOsRemove (effects w) = [].
Proof.
  split.
  - exact (proj1 (RemoveJob_keeps_file_on_failure Machine memorySystem
                    asciiToLower joinPath "Backup" (emptyMachine None))
             (foreignError "$HOME is not defined") eq_refl).
  - exact (proj2 (RemoveJob_keeps_file_on_failure Machine memorySystem
                    asciiToLower joinPath "Backup" (userMachine false))
             backupHome (foreignError "exit status 1") eq_refl eq_refl).
Defined.

Lemma RemoveJob_ignores_stop_failure_witness :
  fst (Run memorySystem launchctlBin
         ["stop"%string; getJobName asciiToLower "Backup"]
         (userMachine true))
  = Some (foreignError "exit status 3")
  /\ removeBackup "Backup" (start (userMachine true))
     = Some (None,
             {| sys := userMachine false;
                effects :=
                  [OsUserHomeDir;
                   ExecRun launchctlBin
                     ["stop"%string; "local.resticprofile.backup"%string];
                   ExecRun launchctlBin ["unload"%string; backupAgentFile];
                   OsRemove backupAgentFile] |}).
Proof.
  split; [reflexivity|].
  exact (RemoveJob_ignores_stop_failure Machine memorySystem asciiToLower
           joinPath "Backup" backupHome (userMachine true) eq_refl eq_refl).
Defined.

Lemma createJob_runs_no_command_witness :
  exists r w,
    createBackup (backupProfile "Backup") (start (userMachine false))
    = Some (r, w)
    /\ Forall (fun e => match e with
                        | ExecRun _ _ | ExecLookPath _ | OsRemove _ => False
                        | _ => True
                        end) (effects w).
Proof.
  eexists _, _. split; [vm_compute; reflexivity|].
  apply (createJob_runs_no_command Machine memorySystem "resticprofile"
           asciiToLower joinPath underDirectory spreadModel
           (backupProfile "Backup") (userMachine false) None).
  vm_compute. reflexivity.
Defined.

Lemma createJob_fails_fast_witness :
  createBackup (backupProfile "Backup") (start (emptyMachine None))
  = Some (Some (foreignError "$HOME is not defined"),
          {| sys := emptyMachine None;
             effects := [OsGetwd; OsUserHomeDir] |}).
Proof.
  exact (proj1 (proj2 (createJob_fails_fast Machine memorySystem
                         "resticprofile" asciiToLower joinPath
                         underDirectory spreadModel (backupProfile "Backup")
                         (emptyMachine None)))
           "/work"%string (foreignError "$HOME is not defined")
           eq_refl eq_refl).
Defined.

Lemma createJob_encodes_and_closes_witness :
  exists job intervals,
    getCalendarIntervalsFromSchedules spreadModel [halfHourly]
    = Some intervals
    /\ job = launchJob "resticprofile" asciiToLower underDirectory
               (backupProfile "Backup") "/work" intervals
    /\ createBackup (backupProfile "Backup") (start (userMachine false))
       = Some (None,
               {| sys := {| files := {[ backupAgentFile := Some job ]};
                            loaded := [];
                            homeDir := Some backupHome |};
                  effects := [OsGetwd; OsUserHomeDir;
                              OsCreate backupAgentFile;
                              PlistEncode backupAgentFile job;
                              FileClose backupAgentFile] |}).
Proof.
  eexists _, _. split; [reflexivity|]. split; [reflexivity|].
  pose proof (createJob_encodes_and_closes Machine memorySystem
                "resticprofile" asciiToLower joinPath underDirectory
                spreadModel (backupProfile "Backup") (userMachine false)
                "/work" backupHome _ eq_refl eq_refl eq_refl eq_refl)
    as Hrun.
  rewrite Hrun. vm_compute. reflexivity.
Defined.

Lemma agent_addressed_by_lowercase_witness :
  exists r w r' w',
    createBackup (backupProfile "Backup") (start (userMachine false))
    = Some (r, w)
    /\ removeBackup "BACKUP" (start (userMachine true)) = Some (r', w')
    /\ Forall (fun e => match e with
                        | OsCreate f | FileClose f => f = backupAgentFile
                        | PlistEncode f job =>
                            f = backupAgentFile
                            /\ Label job = "local.resticprofile.backup"%string
                        | _ => True
                        end) (effects w)
    /\ Forall (fun e => match e with
                        | OsRemove f => f = backupAgentFile
                        | _ => True
                        end) (effects w').
Proof.
  eexists _, _, _, _.
  split; [vm_compute; reflexivity|]. split; [vm_compute; reflexivity|].
  destruct (agent_addressed_by_lowercase Machine memorySystem "resticprofile"
              asciiToLower joinPath underDirectory spreadModel
              (backupProfile "Backup") "BACKUP" backupHome
              (userMachine false) (userMachine true) _ _ _ _
              eq_refl eq_refl eq_refl
              ltac:(vm_compute; reflexivity) ltac:(vm_compute; reflexivity))
    as (Hcreated & Hremoved & _).
  split; [exact Hcreated|].
  eapply Forall_impl; [exact Hremoved|].
  intros [] H; try exact I. exact H.
Defined.

End AgentRuns.

(** * Properties of loadSchedules *)

Section ScheduleLoading.

Import Darwin.

Variable Parse : string -> Event + error.

(** The loop gets past a prefix of schedules that all load, collecting their
    events in order. *)
Lemma loadFrom_prefix (pre : list string) :
  forall (count index : Z) (rest : list string) (events : list Event)
         (out : list Printed),
    forallb (loads Parse) pre = true ->
    exists out',
      loadFrom Parse count index (pre ++ rest) events out
      = loadFrom Parse count (index + Z.of_nat (length pre)) rest
          (events ++ omap (eventOf Parse) pre) out'.
Proof.
  induction pre as [|schedule pre IH]; intros count index rest events out Hpre.
  - exists out. simpl. rewrite Z.add_0_r, app_nil_r. reflexivity.
  - simpl in Hpre. apply andb_true_iff in Hpre as [Hloads Hpre].
    unfold loads in Hloads. apply andb_true_iff in Hloads as [Hnonempty Hparse].
    apply negb_true_iff in Hnonempty.
    destruct (Parse schedule) as [event|err] eqn:Hparsed; [|discriminate].
    assert (Hevent : eventOf Parse schedule = Some event).
    { unfold eventOf. rewrite Hparsed. reflexivity. }
    destruct (IH count (index + 1) rest (events ++ [event])
                ((out ++ [Analyzing (index + 1) count])
                 ++ [Described schedule event]) Hpre) as [out' Hrun].
    exists out'. simpl app. cbn [loadFrom].
    rewrite Hnonempty, Hparsed, Hrun.
    cbn [omap list_omap]. rewrite Hevent.
    rewrite <- app_assoc. simpl app.
    replace (index + 1 + Z.of_nat (length pre))
      with (index + Z.of_nat (length (schedule :: pre)))
      by (simpl length; lia).
    reflexivity.
Qed.

Lemma omap_eventOf_loads (schedules : list string) :
  forallb (loads Parse) schedules = true ->
  map Some (omap (eventOf Parse) schedules) = map (eventOf Parse) schedules.
Proof.
  induction schedules as [|schedule schedules IH]; [reflexivity|].
  simpl. intros Hall. apply andb_true_iff in Hall as [Hloads Hall].
  unfold loads in Hloads. apply andb_true_iff in Hloads as [_ Hparse].
  destruct (Parse schedule) as [event|err] eqn:Hparsed; [|discriminate].
  assert (Hevent : eventOf Parse schedule = Some event).
  { unfold eventOf. rewrite Hparsed. reflexivity. }
  cbn [omap list_omap]. rewrite Hevent. simpl. rewrite <- (IH Hall).
  reflexivity.
Qed.

Lemma first_failure (schedules : list string) :
  forallb (loads Parse) schedules = false ->
  exists pre bad post,
    schedules = pre ++ bad :: post
    /\ forallb (loads Parse) pre = true
    /\ loads Parse bad = false.
Proof.
  induction schedules as [|schedule schedules IH]; [discriminate|].
  simpl. destruct (loads Parse schedule) eqn:Hloads; simpl.
  - intros Hrest. destruct (IH Hrest) as (pre & bad & post & -> & Hpre & Hbad).
    exists (schedule :: pre), bad, post. simpl. rewrite Hloads.
    repeat split; assumption.
  - intros _. exists [], schedule, schedules. repeat split. exact Hloads.
Qed.

Lemma failureOf_fails (schedule : string) :
  loads Parse schedule = false -> failureOf Parse schedule <> None.
Proof.
  unfold loads, failureOf.
  destruct (String.eqb schedule ""); [discriminate|]. simpl.
  destruct (Parse schedule); discriminate.
Qed.

(** [loadSchedules] stops at the first schedule that is empty or does not
    parse: it returns the events of the schedules before it together with
    the error ("empty schedule", or the parser's), and what follows is not
    looked at. *)
Theorem loadSchedules_stops_at_first_failure (pre post : list string)
    (bad : string) :
  forallb (loads Parse) pre = true ->
  loads Parse bad = false ->
  exists events err,
    fst (loadSchedules Parse (pre ++ bad :: post)) = (events, Some err)
    /\ failureOf Parse bad = Some err
    /\ map Some events = map (eventOf Parse) pre.
Proof.
  intros Hpre Hbad. unfold loadSchedules.
  destruct (loadFrom_prefix pre (Z.of_nat (length (pre ++ bad :: post))) 0
              (bad :: post) [] [] Hpre) as [out Hrun].
  rewrite Hrun. simpl app. cbn [loadFrom].
  pose proof (omap_eventOf_loads pre Hpre) as Hevents.
  unfold loads in Hbad. unfold failureOf.
  destruct (String.eqb bad "") eqn:Hempty; simpl in *.
  - eexists _, _. repeat split. exact Hevents.
  - destruct (Parse bad) as [event|err]; [discriminate|].
    eexists _, _. repeat split. exact Hevents.
Qed.

(** [loadSchedules] returns no error iff every schedule is non-empty and
    parses; it then returns one event for each schedule, in order. *)
Theorem loadSchedules_succeeds_iff (schedules : list string) :
  (snd (fst (loadSchedules Parse schedules)) = None
   <-> forallb (loads Parse) schedules = true)
  /\ (forallb (loads Parse) schedules = true ->
      map Some (fst (fst (loadSchedules Parse schedules)))
      = map (eventOf Parse) schedules
      /\ length (fst (fst (loadSchedules Parse schedules)))
         = length schedules).
Proof.
  assert (Hgood : forallb (loads Parse) schedules = true ->
            exists out,
              loadSchedules Parse schedules
              = (omap (eventOf Parse) schedules, None, out)).
  { intros Hall. unfold loadSchedules.
    destruct (loadFrom_prefix schedules (Z.of_nat (length schedules)) 0 []
                [] [] Hall) as [out Hrun].
    rewrite app_nil_r in Hrun. rewrite Hrun. simpl. eexists. reflexivity. }
  split.
  - split.
    + intros Hnone.
      destruct (forallb (loads Parse) schedules) eqn:Hall; [reflexivity|].
      destruct (first_failure schedules Hall)
        as (pre & bad & post & -> & Hpre & Hbad).
      destruct (loadSchedules_stops_at_first_failure pre post bad Hpre Hbad)
        as (events & err & Hrun & _).
      rewrite Hrun in Hnone. discriminate.
    + intros Hall. destruct (Hgood Hall) as [out ->]. reflexivity.
  - intros Hall. destruct (Hgood Hall) as [out ->]. simpl.
    pose proof (omap_eventOf_loads schedules Hall) as Hevents.
    split; [exact Hevents|].
    apply (f_equal length) in Hevents. rewrite !length_map in Hevents.
    exact Hevents.
Qed.

(** The parser is never given an empty schedule: two parsers that agree on
    the non-empty strings give the same result, events, error and output. *)
Theorem loadSchedules_never_parses_empty
    (Parse' : string -> Event + error) (schedules : list string) :
  (forall schedule, schedule <> ""%string -> Parse schedule = Parse' schedule)
  -> loadSchedules Parse schedules = loadSchedules Parse' schedules.
Proof.
  intros Hagree. unfold loadSchedules.
  generalize (Z.of_nat (length schedules)) as count.
  generalize 0 as index. generalize (@nil Event) as events.
  generalize (@nil Printed) as out.
  induction schedules as [|schedule schedules IH];
    intros out events index count; [reflexivity|].
  cbn [loadFrom].
  destruct (String.eqb_spec schedule "") as [Hempty|Hnonempty];
    [reflexivity|].
  rewrite <- (Hagree schedule Hnonempty).
  destruct (Parse schedule) as [event|err]; [|reflexivity].
  apply IH.
Qed.

End ScheduleLoading.

Section ScheduleRuns.

Import Darwin.

Lemma loadSchedules_stops_at_first_failure_witness :
  exists events err,
    fst (loadSchedules twoSchedules
           ["Mon-Fri *-*-* *:0,30:00"; ""; "*-*-01 *:*:*"]%string)
    = (events, Some err)
    /\ failureOf twoSchedules "" = Some err
    /\ map Some events
       = map (eventOf twoSchedules) ["Mon-Fri *-*-* *:0,30:00"%string].
Proof.
  exact (loadSchedules_stops_at_first_failure twoSchedules
           ["Mon-Fri *-*-* *:0,30:00"%string] ["*-*-01 *:*:*"%string] ""
           eq_refl eq_refl).
Defined.

Lemma loadSchedules_succeeds_iff_witness :
  map Some (fst (fst (loadSchedules twoSchedules
                        ["Mon-Fri *-*-* *:0,30:00"; "*-*-01 *:*:*"]%string)))
  = [Some halfHourly; Some firstOfMonth]
  /\ length (fst (fst (loadSchedules twoSchedules
                         ["Mon-Fri *-*-* *:0,30:00"; "*-*-01 *:*:*"]%string)))
     = 2%nat.
Proof.
  exact (proj2 (loadSchedules_succeeds_iff twoSchedules
                  ["Mon-Fri *-*-* *:0,30:00"; "*-*-01 *:*:*"]%string)
           eq_refl).
Defined.

Lemma loadSchedules_never_parses_empty_witness :
  loadSchedules twoSchedules ["*-*-01 *:*:*"; ""]%string
  = loadSchedules
      (fun schedule => if String.eqb schedule "" then inl anyEvent
                       else twoSchedules schedule)
      ["*-*-01 *:*:*"; ""]%string.
Proof.
  apply (loadSchedules_never_parses_empty twoSchedules).
  intros schedule Hnonempty.
  destruct (String.eqb_spec schedule ""); [contradiction|reflexivity].
Defined.

End ScheduleRuns.
